(** * undersort: file collection, exclusion patterns and the CLI driver

    A shallow embedding of [src/undersort/main.py]:
    - [collect_python_files] (the file collector),
    - [_matches_any_pattern] (the exclusion-pattern matcher),
    - [main] (the command-line driver around the external [sort_file]).

    Python values are modelled as follows.
    - [str] is [string]; a character is a byte, which is exact for ASCII
      text and keeps Python's code-point order on UTF-8 encoded text.
    - [pathlib.Path] (POSIX flavour) is the record [Path] holding [parts];
      the root, when present, is the first part and starts with [/].
    - The file system queried by [is_file], [is_dir], [exists] and [glob]
      and the collaborators [fnmatch.fnmatch] and [sort_file] are not code
      of this repository: they are parameters of the development.  A
      concrete matcher [Fnmatch.fnmatch] and small concrete file systems
      are supplied for the examples. *)

From Stdlib Require Import List String Ascii Bool Arith ZArith Lia.
From Stdlib Require Import Sorting.Sorted Sorting.Permutation.
From Stdlib Require Import Structures.OrderedTypeEx.
From Stdlib Require DecimalString.
Import ListNotations.

Open Scope string_scope.
Open Scope list_scope.

(* ================================================================== *)
(** ** Python [str] helpers *)

Module PyStr.

(** [sub in s] for a non-empty [sub]. *)
Definition contains (sub s : string) : bool :=
  match String.index 0 sub s with
  | Some _ => true
  | None => false
  end.

(** [s.startswith(p)]. *)
Definition startswith (p s : string) : bool := String.prefix p s.

(** [s.rfind(c)] for a one-character [c], counting from [i];
    [None] stands for Python's [-1]. *)
Fixpoint rfind_from (c : ascii) (s : string) (i : nat) : option nat :=
  match s with
  | EmptyString => None
  | String a s' =>
      match rfind_from c s' (S i) with
      | Some j => Some j
      | None => if Ascii.eqb a c then Some i else None
      end
  end.

Definition rfind (c : ascii) (s : string) : option nat := rfind_from c s 0.

(** [s[i:]]. *)
Definition slice_from (i : nat) (s : string) : string :=
  String.substring i (String.length s - i) s.

(** [str(n)] for a non-negative integer. *)
Definition of_nat (n : nat) : string :=
  DecimalString.NilZero.string_of_uint (Nat.to_uint n).

End PyStr.

(* ================================================================== *)
(** ** [pathlib.Path] *)

Record Path : Type := mkPath { parts : list string }.

Definition Path_eq_dec (p q : Path) : {p = q} + {p <> q}.
Proof.
  decide equality. apply (list_eq_dec String.string_dec).
Defined.

(** A path is anchored when its first part is a root ([/] or [//]). *)
Definition has_root (p : Path) : bool :=
  match parts p with
  | r :: _ => PyStr.startswith "/" r
  | [] => false
  end.

(** [str(path)]: [.] for the empty path, the root glued to the joined
    tail for an anchored path, the joined parts otherwise. *)
Definition str (p : Path) : string :=
  match parts p with
  | [] => "."
  | r :: tail =>
      if PyStr.startswith "/" r
      then (r ++ String.concat "/" tail)%string
      else String.concat "/" (parts p)
  end.

(** [path.name]: the last part, unless the path is empty or is only a
    root. *)
Definition name (p : Path) : string :=
  if Nat.eqb (List.length (parts p)) (if has_root p then 1 else 0)
  then ""
  else List.last (parts p) "".

(** [path.suffix]: the text of [name] from its last dot, provided that
    dot is neither the first nor the last character (pathlib up to
    Python 3.13). *)
Definition suffix (p : Path) : string :=
  let nm := name p in
  match PyStr.rfind "."%char nm with
  | Some i =>
      if Nat.ltb 0 i && Nat.ltb i (String.length nm - 1)
      then PyStr.slice_from i nm
      else ""
  | None => ""
  end.

(** [Path( *segments )] for a slice [path.parts[i:]] of the parts of a
    path: such segments are already normalised, so they are the parts of
    the result. *)
Definition Path_of_parts (segments : list string) : Path := mkPath segments.

(** Ordering of paths ([Path.__lt__]): the part sequences are compared
    as Python compares lists of strings, element by element and then by
    length. *)
Fixpoint parts_compare (a b : list string) : comparison :=
  match a, b with
  | [], [] => Eq
  | [], _ :: _ => Lt
  | _ :: _, [] => Gt
  | x :: a', y :: b' =>
      match String.compare x y with
      | Eq => parts_compare a' b'
      | c => c
      end
  end.

Definition Path_lt (p q : Path) : bool :=
  match parts_compare (parts p) (parts q) with
  | Lt => true
  | _ => false
  end.

(** [p <= q] in the lexicographic order of paths. *)
Definition Path_le (p q : Path) : Prop := Path_lt q p = false.

(** [sorted(paths)]: a stable insertion sort driven by [<] only, as
    Python's sort is. *)
Fixpoint insert_sorted (x : Path) (l : list Path) : list Path :=
  match l with
  | [] => [x]
  | y :: l' => if Path_lt y x then y :: insert_sorted x l' else x :: l
  end.

Fixpoint sorted (l : list Path) : list Path :=
  match l with
  | [] => []
  | x :: l' => insert_sorted x (sorted l')
  end.

(* ================================================================== *)
(** ** [fnmatch.fnmatch] on POSIX

    A concrete matcher for the examples, following
    [fnmatch.translate]: [*] matches any text (also across [/]), [?] one
    character, [[seq]] and [[!seq]] a character set with ranges, a [[]
    without closing bracket is literal.  Matching is case sensitive and
    anchored at both ends. *)

Module Fnmatch.

Inductive ClassItem : Type :=
| CChar (c : ascii)
| CRange (lo hi : ascii).

Inductive Token : Type :=
| TStar
| TAny
| TClass (negated : bool) (items : list ClassItem)
| TLit (c : ascii).

Definition code (c : ascii) : N := N_of_ascii c.

(** Items of a bracket body, left to right: [x-y] is a range when a
    character follows the hyphen. *)
Fixpoint class_items (skip : nat) (body : list ascii) : list ClassItem :=
  match body with
  | [] => []
  | c :: rest =>
      match skip with
      | S k => class_items k rest
      | O =>
          match rest with
          | "-"%char :: hi :: _ => CRange c hi :: class_items 2 rest
          | _ => CChar c :: class_items 0 rest
          end
      end
  end.

(** Ranges whose bounds are out of order are dropped by [translate]. *)
Definition nonempty_item (it : ClassItem) : bool :=
  match it with
  | CChar _ => true
  | CRange lo hi => (code lo <=? code hi)%N
  end.

(** The set built from the text between the brackets.  When dropped
    ranges leave [!] in front of an unnegated set, [translate] reads it
    as a negation; that is reproduced here. *)
Definition class_token (content : list ascii) : Token :=
  match content with
  | "!"%char :: body => TClass true (filter nonempty_item (class_items 0 body))
  | _ =>
      match filter nonempty_item (class_items 0 content) with
      | CChar "!"%char :: items => TClass true items
      | CRange "!"%char hi :: items =>
          TClass true (CChar "-"%char :: CChar hi :: items)
      | items => TClass false items
      end
  end.

Fixpoint index_of (c : ascii) (l : list ascii) : option nat :=
  match l with
  | [] => None
  | a :: l' =>
      if Ascii.eqb a c then Some 0
      else option_map S (index_of c l')
  end.

(** Length of the text between [[] and its closing []]; a []] right
    after [[] or [[!] belongs to the set. *)
Definition bracket_end (rest : list ascii) : option nat :=
  let j1 := match rest with "!"%char :: _ => 1 | _ => 0 end in
  let j2 := match skipn j1 rest with "]"%char :: _ => S j1 | _ => j1 end in
  option_map (fun k => j2 + k) (index_of "]"%char (skipn j2 rest)).

Fixpoint translate (skip : nat) (pat : list ascii) : list Token :=
  match pat with
  | [] => []
  | c :: rest =>
      match skip with
      | S k => translate k rest
      | O =>
          if Ascii.eqb c "*" then TStar :: translate 0 rest
          else if Ascii.eqb c "?" then TAny :: translate 0 rest
          else if Ascii.eqb c "[" then
            match bracket_end rest with
            | Some j => class_token (firstn j rest) :: translate (S j) rest
            | None => TLit c :: translate 0 rest
            end
          else TLit c :: translate 0 rest
      end
  end.

Definition item_matches (c : ascii) (it : ClassItem) : bool :=
  match it with
  | CChar a => Ascii.eqb a c
  | CRange lo hi => ((code lo <=? code c) && (code c <=? code hi))%N
  end.

Fixpoint match_tokens (ts : list Token) (s : list ascii) : bool :=
  match ts with
  | [] => match s with [] => true | _ :: _ => false end
  | TStar :: ts' =>
      (fix star (s : list ascii) : bool :=
         match_tokens ts' s
         || match s with [] => false | _ :: s' => star s' end) s
  | TAny :: ts' =>
      match s with [] => false | _ :: s' => match_tokens ts' s' end
  | TClass negated items :: ts' =>
      match s with
      | [] => false
      | c :: s' =>
          xorb negated (existsb (item_matches c) items)
          && match_tokens ts' s'
      end
  | TLit a :: ts' =>
      match s with
      | [] => false
      | c :: s' => Ascii.eqb a c && match_tokens ts' s'
      end
  end.

Definition fnmatch (name pat : string) : bool :=
  match_tokens (translate 0 (list_ascii_of_string pat))
               (list_ascii_of_string name).

End Fnmatch.

(* ================================================================== *)
(** ** The file system seen by [pathlib] *)

Inductive FileKind : Type := RegularFile | Directory | OtherKind.

(** [stat] gives what a path resolves to ([None]: nothing there);
    [glob] is the enumeration yielded by [path.glob(pattern)], in the
    order the operating system lists the entries. *)
Record FileSystem : Type := mkFS {
  stat : Path -> option FileKind;
  glob : Path -> string -> list Path
}.

Definition is_file (fs : FileSystem) (p : Path) : bool :=
  match stat fs p with Some RegularFile => true | _ => false end.

Definition is_dir (fs : FileSystem) (p : Path) : bool :=
  match stat fs p with Some Directory => true | _ => false end.

Definition path_exists (fs : FileSystem) (p : Path) : bool :=
  match stat fs p with Some _ => true | None => false end.

(** [Path.glob] yields children of the path it is called on: every
    result carries the parts of that path as a prefix. *)
Definition glob_below_root (fs : FileSystem) : Prop :=
  forall root pattern f,
    In f (glob fs root pattern) ->
    exists rel, parts f = parts root ++ rel.

(* ================================================================== *)
(** ** The pattern matcher and the file collector *)

Section Collector.

(** [fnmatch.fnmatch name pat]. *)
Variable fnmatch : string -> string -> bool.

(** The inner loop of [_matches_any_pattern]: some suffix
    [parts[part_idx:]], rejoined as a path, matches [pattern]. *)
Definition matches_subpath (file_path : Path) (pattern : string) : bool :=
  existsb
    (fun part_idx =>
       let subpath := str (Path_of_parts (skipn part_idx (parts file_path))) in
       fnmatch subpath pattern)
    (seq 0 (List.length (parts file_path))).

Fixpoint _matches_any_pattern (file_path : Path) (patterns : list string)
  : bool :=
  let path_str := str file_path in
  match patterns with
  | [] => false
  | pattern :: patterns' =>
      if fnmatch path_str pattern then true
      else if negb (PyStr.contains "/" pattern) then
        if fnmatch (name file_path) pattern then true
        else _matches_any_pattern file_path patterns'
      else if fnmatch path_str ("*/" ++ pattern)%string then true
      else if matches_subpath file_path pattern then true
      else _matches_any_pattern file_path patterns'
  end.

Definition exclude_dirs : list string := ["venv"; "__pycache__"; "node_modules"].

Definition in_exclude_dirs (part : string) : bool :=
  existsb (String.eqb part) exclude_dirs.

(** The test applied to each part of a globbed path. *)
Definition excluded_part (part : string) : bool :=
  in_exclude_dirs part
  || (PyStr.startswith "." part && negb (String.eqb part ".")).

(** Truth value of [exclude_patterns : list[str] | None]. *)
Definition truthy (exclude_patterns : option (list string)) : bool :=
  match exclude_patterns with
  | Some (_ :: _) => true
  | _ => false
  end.

Definition patterns_of (exclude_patterns : option (list string))
  : list string :=
  match exclude_patterns with Some l => l | None => [] end.

Definition collect_python_files (fs : FileSystem) (path : Path)
    (recursive : bool) (exclude_patterns : option (list string))
  : list Path :=
  if is_file fs path then
    if String.eqb (suffix path) ".py" then [path] else []
  else if is_dir fs path then
    let pattern := if recursive then "**/*.py" else "*.py" in
    let all_files := glob fs path pattern in
    let filtered_files :=
      filter (fun f => negb (existsb excluded_part (parts f))) all_files in
    let filtered_files :=
      if truthy exclude_patterns
      then filter
             (fun f => negb (_matches_any_pattern f (patterns_of exclude_patterns)))
             filtered_files
      else filtered_files in
    sorted filtered_files
  else [].

End Collector.

(** ** The matcher as section 4.1 of the specification words it *)

Section MatcherSpec.

Variable fnmatch : string -> string -> bool.

(** Every suffix of the segments, from each starting segment to the
    end. *)
Fixpoint segment_suffixes (segments : list string) : list (list string) :=
  match segments with
  | [] => []
  | _ :: rest => segments :: segment_suffixes rest
  end.

(** Steps 1 to 4, for one pattern: the full path; for a pattern
    without separator the basename and nothing else; for a pattern
    with a separator the pattern behind [*/], then every suffix of the
    segments rejoined as a path. *)
Definition spec_matches (path : Path) (pattern : string) : bool :=
  if fnmatch (str path) pattern then true
  else if negb (PyStr.contains "/" pattern) then
    fnmatch (name path) pattern
  else
    fnmatch (str path) ("*/" ++ pattern)%string
    || existsb
         (fun segments => fnmatch (str (Path_of_parts segments)) pattern)
         (segment_suffixes (parts path)).

(** Step 5: some pattern of the set succeeds. *)
Definition spec_matches_any (path : Path) (patterns : list string) : bool :=
  existsb (spec_matches path) patterns.

End MatcherSpec.

(* ================================================================== *)
(** ** The command-line driver *)

(** What a call of the external [sort_file] does: it returns whether the
    file was (or would be) modified, or raises an [Exception] whose text
    is [e]. *)
Inductive Outcome : Type :=
| Returned (was_modified : bool)
| Raised (e : string).

(** What a run of [main] does to the outside: logger and console
    output, and the calls of [sort_file] with their keyword arguments. *)
Inductive Event : Type :=
| LogError (msg : string)
| LogWarning (msg : string)
| LogInfo (msg : string)
| LogSuccess (msg : string)
| ConsolePrint (msg : string)
| SortFile (file_path : Path) (check_only show_diff : bool) (outcome : Outcome).

(** The parsed command line ([argparse.Namespace]). *)
Record Args : Type := mkArgs {
  paths : list Path;
  check : bool;
  diff : bool;
  recursive : bool;
  exclude : option (list string)
}.

(** The mapping returned by [load_config()]: [config["order"]],
    [config.get("exclude")] and [config.get("method_type_order")]. *)
Record Config (Order MethodTypeOrder : Type) : Type := mkConfig {
  order : Order;
  config_exclude : option (list string);
  method_type_order : option MethodTypeOrder
}.

Arguments mkConfig {Order MethodTypeOrder}.
Arguments order {Order MethodTypeOrder}.
Arguments config_exclude {Order MethodTypeOrder}.
Arguments method_type_order {Order MethodTypeOrder}.

(** Effects of [main]: the outside world is threaded through and the
    events are collected in order. *)
Module Run.

Definition M (World A : Type) : Type := World -> A * World * list Event.

Definition ret {World A : Type} (a : A) : M World A := fun w => (a, w, []).

Definition bind {World A B : Type} (m : M World A) (k : A -> M World B)
  : M World B :=
  fun w =>
    let '(a, w1, t1) := m w in
    let '(b, w2, t2) := k a w1 in
    (b, w2, t1 ++ t2).

Definition emit {World : Type} (e : Event) : M World unit :=
  fun w => (tt, w, [e]).

Definition read {World A : Type} (f : World -> A) : M World A :=
  fun w => (f w, w, []).

(** The parts of a finished run. *)
Definition value {World A : Type} (r : A * World * list Event) : A :=
  fst (fst r).
Definition final {World A : Type} (r : A * World * list Event) : World :=
  snd (fst r).
Definition trace {World A : Type} (r : A * World * list Event)
  : list Event :=
  snd r.

End Run.

Notation "x <- m ;; k" := (Run.bind m (fun x => k))
  (at level 61, m at next level, right associativity).
Notation "m ;; k" := (Run.bind m (fun _ => k))
  (at level 61, right associativity).
Notation "' pat <- m ;; k" :=
  (Run.bind m (fun x => match x with pat => k end))
  (at level 61, pat pattern, m at next level, right associativity).

Section Main.

Variable fnmatch : string -> string -> bool.

(** The outside world, the file system it shows, and the ordering
    policies handed through to the sorter. *)
Variable World : Type.
Variable world_fs : World -> FileSystem.
Variables Order MethodTypeOrder : Type.

(** [sort_file(path, order, method_type_order=, check_only=, show_diff=)]. *)
Variable sort_file :
  Path -> Order -> option MethodTypeOrder -> bool -> bool ->
  World -> Outcome * World.

Definition logger_error (msg : string) : Run.M World unit :=
  Run.emit (LogError msg).
Definition logger_warning (msg : string) : Run.M World unit :=
  Run.emit (LogWarning msg).
Definition logger_info (msg : string) : Run.M World unit :=
  Run.emit (LogInfo msg).
Definition logger_success (msg : string) : Run.M World unit :=
  Run.emit (LogSuccess msg).
Definition console_print (msg : string) : Run.M World unit :=
  Run.emit (ConsolePrint msg).

Definition call_sort_file (file_path : Path) (o : Order)
    (mto : option MethodTypeOrder) (check_only show_diff : bool)
  : Run.M World Outcome :=
  fun w =>
    let '(r, w') := sort_file file_path o mto check_only show_diff w in
    (r, w', [SortFile file_path check_only show_diff r]).

(** Lines 118-123: configuration patterns first, then the [--exclude]
    ones. *)
Definition merge_exclude (from_config from_cli : option (list string))
  : list string :=
  let exclude_patterns := [] in
  let exclude_patterns :=
    if truthy from_config
    then exclude_patterns ++ patterns_of from_config
    else exclude_patterns in
  if truthy from_cli
  then exclude_patterns ++ patterns_of from_cli
  else exclude_patterns.

(** [exclude_patterns or None]. *)
Definition or_None (exclude_patterns : list string) : option (list string) :=
  match exclude_patterns with
  | [] => None
  | _ :: _ => Some exclude_patterns
  end.

(** Lines 125-132: the loop over [args.paths]. *)
Fixpoint collect_paths (args : Args) (exclude_patterns : list string)
    (todo : list Path) (all_files : list Path) : Run.M World (list Path) :=
  match todo with
  | [] => Run.ret all_files
  | path :: todo' =>
      found <- Run.read (fun w => path_exists (world_fs w) path) ;;
      if negb found then
        logger_error ("Path not found: " ++ str path)%string ;;
        collect_paths args exclude_patterns todo' all_files
      else
        python_files <-
          Run.read (fun w =>
            collect_python_files fnmatch (world_fs w) path
              (recursive args) (or_None exclude_patterns)) ;;
        collect_paths args exclude_patterns todo' (all_files ++ python_files)
  end.

(** Lines 141-160: the loop over [all_files], with its two
    accumulators. *)
Fixpoint process_files (args : Args) (config : Config Order MethodTypeOrder)
    (todo : list Path) (modified_files : list Path) (errors : bool)
  : Run.M World (list Path * bool) :=
  match todo with
  | [] => Run.ret (modified_files, errors)
  | file_path :: todo' =>
      r <- call_sort_file file_path (order config)
             (method_type_order config) (check args) (diff args) ;;
      match r with
      | Returned was_modified =>
          if negb was_modified then
            process_files args config todo' modified_files errors
          else
            (if negb (check args)
             then logger_success ("Sorted " ++ str file_path)%string
             else Run.ret tt) ;;
            process_files args config todo'
              (modified_files ++ [file_path]) errors
      | Raised e =>
          logger_error
            ("Error processing " ++ str file_path ++ ": " ++ e)%string ;;
          process_files args config todo' modified_files true
      end
  end.

(** Lines 164-165. *)
Fixpoint print_files (files : list Path) : Run.M World unit :=
  match files with
  | [] => Run.ret tt
  | f :: files' =>
      console_print ("  - " ++ str f)%string ;; print_files files'
  end.

Definition nonempty {A : Type} (l : list A) : bool :=
  match l with [] => false | _ :: _ => true end.

(** [main()], after [parser.parse_args()] gave [args] and
    [load_config()] gave [config]; the result is the exit code. *)
Definition main (args : Args) (config : Config Order MethodTypeOrder)
  : Run.M World Z :=
  let exclude_patterns := merge_exclude (config_exclude config) (exclude args) in
  all_files <- collect_paths args exclude_patterns (paths args) [] ;;
  if negb (nonempty all_files) then
    logger_warning "No Python files found" ;;
    Run.ret 0%Z
  else
    '(modified_files, errors) <- process_files args config all_files [] false ;;
    if check args && nonempty modified_files then
      logger_warning
        ("Files that need sorting: "
           ++ PyStr.of_nat (List.length modified_files))%string ;;
      print_files modified_files ;;
      Run.ret 1%Z
    else
      (if negb (nonempty modified_files) && negb errors then
         logger_info "All files are already sorted correctly"
       else if nonempty modified_files && negb (check args) then
         logger_success
           ("Sorted " ++ PyStr.of_nat (List.length modified_files)
              ++ " file(s) successfully")%string
       else Run.ret tt) ;;
      Run.ret (if errors then 1%Z else 0%Z).

(** The aggregate list [all_files] of a run started in world [w]. *)
Definition collected (args : Args) (config : Config Order MethodTypeOrder)
    (w : World) : list Path :=
  Run.value (collect_paths args
               (merge_exclude (config_exclude config) (exclude args))
               (paths args) [] w).

End Main.

(** *** Reading a trace *)

(** The files handed to [sort_file], in call order. *)
Definition called_files (t : list Event) : list Path :=
  flat_map (fun e => match e with SortFile f _ _ _ => [f] | _ => [] end) t.

(** The files for which [sort_file] returned true, one entry per call. *)
Definition flagged_files (t : list Event) : list Path :=
  flat_map
    (fun e => match e with SortFile f _ _ (Returned true) => [f] | _ => [] end)
    t.

(** The files whose [sort_file] call raised, with the error text. *)
Definition failed_files (t : list Event) : list (Path * string) :=
  flat_map
    (fun e => match e with SortFile f _ _ (Raised e) => [(f, e)] | _ => [] end)
    t.

(** The [check_only] argument of every call. *)
Definition check_only_flags (t : list Event) : list bool :=
  flat_map (fun e => match e with SortFile _ c _ _ => [c] | _ => [] end) t.

(** The lines written with [logger.console.print]. *)
Definition console_lines (t : list Event) : list string :=
  flat_map (fun e => match e with ConsolePrint m => [m] | _ => [] end) t.

Definition error_lines (t : list Event) : list string :=
  flat_map (fun e => match e with LogError m => [m] | _ => [] end) t.

Definition success_lines (t : list Event) : list string :=
  flat_map (fun e => match e with LogSuccess m => [m] | _ => [] end) t.

(** How a modified file is reported: listed on the console in check
    mode, announced through [logger.success] otherwise. *)
Definition reported (check_mode : bool) (f : Path) (t : list Event) : Prop :=
  if check_mode
  then In ("  - " ++ str f)%string (console_lines t)
  else In ("Sorted " ++ str f)%string (success_lines t).

(** The closing line that counts the modified files: a warning in
    check mode, a success message otherwise. *)
Definition summary_event (check_mode : bool) (n : nat) : Event :=
  if check_mode
  then LogWarning ("Files that need sorting: " ++ PyStr.of_nat n)%string
  else LogSuccess
         ("Sorted " ++ PyStr.of_nat n ++ " file(s) successfully")%string.

(** How often [x] occurs in a list of paths. *)
Definition occurrences (x : Path) (l : list Path) : nat :=
  count_occ Path_eq_dec l x.

(* ================================================================== *)
(** ** A concrete file system: the manifest of a directory tree

    The entries below the working directory, in the order the operating
    system enumerates them, each with the parts of its relative path.
    Paths are resolved against the working directory; anchored paths and
    [..] resolve to nothing. *)

Module Manifest.

Definition t : Type := list (list string * FileKind).

Definition parts_eqb (a b : list string) : bool :=
  if list_eq_dec String.string_dec a b then true else false.

(** [strip_prefix pre l] is [Some rel] when [l = pre ++ rel]. *)
Fixpoint strip_prefix (pre l : list string) : option (list string) :=
  match pre, l with
  | [], _ => Some l
  | _ :: _, [] => None
  | x :: pre', y :: l' =>
      if String.eqb x y then strip_prefix pre' l' else None
  end.

Definition stat_in (m : t) (p : Path) : option FileKind :=
  match parts p with
  | [] => Some Directory
  | _ :: _ => option_map snd (find (fun e => parts_eqb (fst e) (parts p)) m)
  end.

(** Whether the relative path [rel] of an entry is selected by the
    glob pattern: [*.py] takes the children whose name matches,
    [**/*.py] the descendants at any depth whose name matches. *)
Definition selected (pattern : string) (rel : list string) : bool :=
  match rel with
  | [] => false
  | _ :: _ =>
      Fnmatch.fnmatch (List.last rel "") "*.py"
      && (String.eqb pattern "**/*.py"
          || (String.eqb pattern "*.py" && Nat.eqb (List.length rel) 1))
  end.

Definition glob_in (m : t) (root : Path) (pattern : string) : list Path :=
  match stat_in m root with
  | Some Directory =>
      flat_map
        (fun e =>
           match strip_prefix (parts root) (fst e) with
           | Some rel =>
               if selected pattern rel
               then [mkPath (parts root ++ rel)]
               else []
           | None => []
           end)
        m
  | _ => []
  end.

Definition fs (m : t) : FileSystem := mkFS (stat_in m) (glob_in m).

End Manifest.

(** *** Sample data *)

Module Sample.

Definition project : Manifest.t :=
  [ (["b.py"], RegularFile);
    (["a.py"], RegularFile);
    (["notes.txt"], RegularFile);
    (["venv"], Directory);
    (["venv"; "lib.py"], RegularFile);
    (["pkg"], Directory);
    (["pkg"; "mod.py"], RegularFile);
    (["pkg"; "conftest.py"], RegularFile);
    ([".git"], Directory);
    ([".git"; "hook.py"], RegularFile) ].


Definition a_py : Path := mkPath ["a.py"].
Definition b_py : Path := mkPath ["b.py"].
Definition pkg : Path := mkPath ["pkg"].
Definition venv : Path := mkPath ["venv"].
Definition venv_lib_py : Path := mkPath ["venv"; "lib.py"].
Definition pkg_mod_py : Path := mkPath ["pkg"; "mod.py"].
Definition pkg_conftest_py : Path := mkPath ["pkg"; "conftest.py"].
Definition cwd : Path := mkPath [].

(** A sorter that finds every file out of order, one that fails on
    [b.py] and flags the rest, and one that finds nothing to do.  None
    of them changes the tree. *)
Definition sorter_flags_all
  : Path -> unit -> option unit -> bool -> bool ->
    Manifest.t -> Outcome * Manifest.t :=
  fun _ _ _ _ _ w => (Returned true, w).

Definition sorter_fails_on_b
  : Path -> unit -> option unit -> bool -> bool ->
    Manifest.t -> Outcome * Manifest.t :=
  fun f _ _ _ _ w =>
    if Path_eq_dec f b_py
    then (Raised "invalid syntax", w)
    else (Returned true, w).

Definition config : Config unit unit := mkConfig tt None None.

Definition run (sorter : Path -> unit -> option unit -> bool -> bool ->
                         Manifest.t -> Outcome * Manifest.t)
    (args : Args) : Z * Manifest.t * list Event :=
  main Fnmatch.fnmatch Manifest.t Manifest.fs unit unit sorter args config
    project.

End Sample.

(* ================================================================== *)
(** ** Further readings of the collector and of a run *)

(** The two filters of the directory branch of [collect_python_files]
    taken together: no part of the path is denylisted or hidden, and no
    exclusion pattern matches. *)
Definition kept (fnmatch : string -> string -> bool)
    (exclude_patterns : option (list string)) (f : Path) : bool :=
  negb (existsb excluded_part (parts f))
  && negb (_matches_any_pattern fnmatch f (patterns_of exclude_patterns)).

(** The lines written with [logger.warning] and [logger.info]. *)
Definition warning_lines (t : list Event) : list string :=
  flat_map (fun e => match e with LogWarning m => [m] | _ => [] end) t.

Definition info_lines (t : list Event) : list string :=
  flat_map (fun e => match e with LogInfo m => [m] | _ => [] end) t.

(** The calls of [sort_file] in a trace, with arguments and outcome. *)
Definition sorter_events (t : list Event) : list Event :=
  filter (fun e => match e with SortFile _ _ _ _ => true | _ => false end) t.

(** What lines 162-171 write once the loop is over. *)
Definition closing_events (check_mode : bool) (modified_files : list Path)
    (errors : bool) : list Event :=
  if check_mode && nonempty modified_files then
    LogWarning
      ("Files that need sorting: "
         ++ PyStr.of_nat (List.length modified_files))%string
    :: map (fun f => ConsolePrint ("  - " ++ str f)%string) modified_files
  else if negb (nonempty modified_files) && negb errors then
    [LogInfo "All files are already sorted correctly"]
  else if nonempty modified_files && negb check_mode then
    [LogSuccess
       ("Sorted " ++ PyStr.of_nat (List.length modified_files)
          ++ " file(s) successfully")%string]
  else [].

(** The sorter applied to a list of files one after the other, each
    call in the world the previous call left, with the keyword arguments
    [main] passes; the calls are recorded as events. *)
Section SorterRun.

Variable World : Type.
Variables Order MethodTypeOrder : Type.
Variable sort_file :
  Path -> Order -> option MethodTypeOrder -> bool -> bool ->
  World -> Outcome * World.

Fixpoint sorter_run (args : Args) (config : Config Order MethodTypeOrder)
    (files : list Path) (w : World) : list Event * World :=
  match files with
  | [] => ([], w)
  | f :: files' =>
      let '(r, w1) :=
        sort_file f (order config) (method_type_order config)
          (check args) (diff args) w in
      let '(events, w2) := sorter_run args config files' w1 in
      (SortFile f (check args) (diff args) r :: events, w2)
  end.

End SorterRun.

(* ================================================================== *)
(** * Properties *)

(** ** Worked examples

    The matcher on the three idioms of section 4.1 (a bare file name, a
    path fragment, a pattern without separator against a directory
    name), the collector on the sample tree, and two runs of [main]. *)

Example matcher_bare_file_name :
  _matches_any_pattern Fnmatch.fnmatch
    (mkPath ["a"; "b"; "conftest.py"]) ["conftest.py"] = true.
Proof. reflexivity. Qed.

Example matcher_path_fragment :
  _matches_any_pattern Fnmatch.fnmatch
    (mkPath ["tests"; "conftest.py"]) ["tests/*"] = true
  /\ _matches_any_pattern Fnmatch.fnmatch
       (mkPath ["src"; "pkg"; "tests"; "conftest.py"]) ["tests/*"] = true.
Proof. split; reflexivity. Qed.

Example matcher_directory_name_alone :
  _matches_any_pattern Fnmatch.fnmatch
    (mkPath ["tests"; "foo.py"]) ["tests"] = false.
Proof. reflexivity. Qed.

Example collect_sample_tree :
  collect_python_files Fnmatch.fnmatch (Manifest.fs Sample.project)
    Sample.cwd true (Some ["conftest.py"])
  = [Sample.a_py; Sample.b_py; Sample.pkg_mod_py]
  /\ collect_python_files Fnmatch.fnmatch (Manifest.fs Sample.project)
       Sample.cwd false None
     = [Sample.a_py; Sample.b_py].
Proof. split; reflexivity. Qed.

Example run_with_nothing_to_collect :
  Sample.run Sample.sorter_flags_all
    (mkArgs [mkPath ["missing"]; mkPath ["notes.txt"]] true false true None)
  = (0%Z, Sample.project,
     [LogError "Path not found: missing";
      LogWarning "No Python files found"]).
Proof. reflexivity. Qed.

Example run_with_a_failing_file :
  Sample.run Sample.sorter_fails_on_b
    (mkArgs [Sample.a_py; Sample.b_py; Sample.pkg] false false true None)
  = (1%Z, Sample.project,
     [SortFile Sample.a_py false false (Returned true);
      LogSuccess "Sorted a.py";
      SortFile Sample.b_py false false (Raised "invalid syntax");
      LogError "Error processing b.py: invalid syntax";
      SortFile Sample.pkg_conftest_py false false (Returned true);
      LogSuccess "Sorted pkg/conftest.py";
      SortFile Sample.pkg_mod_py false false (Returned true);
      LogSuccess "Sorted pkg/mod.py";
      LogSuccess "Sorted 3 file(s) successfully"]).
Proof. reflexivity. Qed.

(** ** The order on paths *)

Section PathOrder.

Lemma string_compare_refl (s : string) : String.compare s s = Eq.
Proof. apply String_as_OT.cmp_eq. reflexivity. Qed.

Lemma string_compare_lt_trans (x y z : string) :
  String.compare x y = Lt -> String.compare y z = Lt ->
  String.compare x z = Lt.
Proof.
  intros Hxy Hyz.
  apply String_as_OT.cmp_lt.
  apply String_as_OT.lt_trans with y; now apply String_as_OT.cmp_lt.
Qed.

Lemma parts_compare_refl (a : list string) : parts_compare a a = Eq.
Proof.
  induction a as [|x a IH]; simpl; [reflexivity|].
  now rewrite string_compare_refl.
Qed.

Lemma parts_compare_eq (a b : list string) :
  parts_compare a b = Eq -> a = b.
Proof.
  revert b.
  induction a as [|x a IH]; intros [|y b]; simpl; try easy.
  destruct (String.compare x y) eqn:E; try easy.
  intros H. apply String.compare_eq_iff in E. subst y.
  f_equal. now apply IH.
Qed.

Lemma parts_compare_antisym (a b : list string) :
  parts_compare a b = CompOpp (parts_compare b a).
Proof.
  revert b.
  induction a as [|x a IH]; intros [|y b]; simpl; try reflexivity.
  rewrite (String.compare_antisym x y).
  destruct (String.compare y x); simpl; auto.
Qed.

Lemma parts_compare_lt_trans (a b c : list string) :
  parts_compare a b = Lt -> parts_compare b c = Lt ->
  parts_compare a c = Lt.
Proof.
  revert b c.
  induction a as [|x a IH]; intros [|y b] [|z c]; simpl; try easy.
  destruct (String.compare x y) eqn:Exy;
    destruct (String.compare y z) eqn:Eyz; try easy.
  - apply String.compare_eq_iff in Exy. subst y. rewrite Eyz. apply IH.
  - apply String.compare_eq_iff in Exy. subst y. now rewrite Eyz.
  - apply String.compare_eq_iff in Eyz. subst z. now rewrite Exy.
  - now rewrite (string_compare_lt_trans x y z Exy Eyz).
Qed.

Lemma Path_lt_asym (p q : Path) : Path_lt p q = true -> Path_lt q p = false.
Proof.
  unfold Path_lt. rewrite (parts_compare_antisym (parts q) (parts p)).
  destruct (parts_compare (parts p) (parts q)); simpl; easy.
Qed.

Lemma Path_lt_trans (p q r : Path) :
  Path_lt p q = true -> Path_lt q r = true -> Path_lt p r = true.
Proof.
  unfold Path_lt.
  destruct (parts_compare (parts p) (parts q)) eqn:E1; try easy.
  destruct (parts_compare (parts q) (parts r)) eqn:E2; try easy.
  now rewrite (parts_compare_lt_trans _ _ _ E1 E2).
Qed.

Lemma Path_le_refl (p : Path) : Path_le p p.
Proof. unfold Path_le, Path_lt. now rewrite parts_compare_refl. Qed.

Lemma Path_le_antisym (p q : Path) : Path_le p q -> Path_le q p -> p = q.
Proof.
  unfold Path_le, Path_lt. intros H1 H2.
  rewrite (parts_compare_antisym (parts p) (parts q)) in H2.
  destruct (parts_compare (parts q) (parts p)) eqn:E; simpl in *; try easy.
  apply parts_compare_eq in E.
  destruct p, q; simpl in *; now subst.
Qed.

Lemma Path_le_trans (p q r : Path) : Path_le p q -> Path_le q r -> Path_le p r.
Proof.
  unfold Path_le. intros H1 H2.
  destruct (Path_lt r p) eqn:E; [|reflexivity].
  (* r < p <= q gives r < q, against q <= r *)
  assert (Hrq : Path_lt r q = true).
  { unfold Path_lt in *.
    rewrite (parts_compare_antisym (parts q) (parts p)) in H1.
    destruct (parts_compare (parts r) (parts p)) eqn:Erp; try easy.
    destruct (parts_compare (parts p) (parts q)) eqn:Epq; simpl in H1;
      try easy.
    - apply parts_compare_eq in Epq. rewrite <- Epq. now rewrite Erp.
    - now rewrite (parts_compare_lt_trans _ _ _ Erp Epq). }
  now rewrite Hrq in H2.
Qed.

Lemma Path_lt_le (p q : Path) : Path_lt p q = true -> Path_le p q.
Proof. apply Path_lt_asym. Qed.

End PathOrder.

(** ** [sorted] *)

Section Sorting.

Lemma insert_sorted_perm (x : Path) (l : list Path) :
  Permutation (insert_sorted x l) (x :: l).
Proof.
  induction l as [|y l IH]; simpl; [reflexivity|].
  destruct (Path_lt y x); [|reflexivity].
  rewrite IH. apply perm_swap.
Qed.

Lemma sorted_perm (l : list Path) : Permutation (sorted l) l.
Proof.
  induction l as [|x l IH]; simpl; [reflexivity|].
  rewrite insert_sorted_perm. now constructor.
Qed.

Lemma sorted_In (l : list Path) (f : Path) : In f (sorted l) <-> In f l.
Proof.
  split; apply Permutation_in;
    [apply sorted_perm | apply Permutation_sym, sorted_perm].
Qed.

Lemma insert_sorted_StronglySorted (x : Path) (l : list Path) :
  StronglySorted Path_le l -> StronglySorted Path_le (insert_sorted x l).
Proof.
  induction l as [|y l IH]; intros Hs; simpl.
  - repeat constructor.
  - inversion Hs as [|? ? Hs' Hall]; subst.
    destruct (Path_lt y x) eqn:E.
    + constructor; [now apply IH|].
      apply Forall_forall. intros z Hz.
      apply (Permutation_in _ (insert_sorted_perm x l)) in Hz.
      destruct Hz as [<-|Hz]; [now apply Path_lt_le|].
      rewrite Forall_forall in Hall. now apply Hall.
    + constructor; [assumption|].
      constructor; [exact E|].
      apply Forall_forall. intros z Hz.
      rewrite Forall_forall in Hall.
      apply Path_le_trans with y; [exact E | now apply Hall].
Qed.

Lemma sorted_StronglySorted (l : list Path) :
  StronglySorted Path_le (sorted l).
Proof.
  induction l as [|x l IH]; simpl; [constructor|].
  now apply insert_sorted_StronglySorted.
Qed.

(** Two ascending lists with the same elements are the same list. *)
Lemma StronglySorted_perm_eq (l1 l2 : list Path) :
  StronglySorted Path_le l1 -> StronglySorted Path_le l2 ->
  Permutation l1 l2 -> l1 = l2.
Proof.
  revert l2.
  induction l1 as [|x l1 IH]; intros l2 H1 H2 Hp.
  - now apply Permutation_nil in Hp.
  - destruct l2 as [|y l2];
      [now apply Permutation_sym, Permutation_nil in Hp|].
    inversion H1 as [|? ? H1' A1]; subst.
    inversion H2 as [|? ? H2' A2]; subst.
    rewrite Forall_forall in A1, A2.
    assert (Hxy : x = y).
    { assert (Hx : In x (y :: l2))
        by (apply (Permutation_in _ Hp); now left).
      assert (Hy : In y (x :: l1))
        by (apply (Permutation_in _ (Permutation_sym Hp)); now left).
      destruct Hx as [->|Hx]; [reflexivity|].
      destruct Hy as [->|Hy]; [reflexivity|].
      apply Path_le_antisym; [now apply A1 | now apply A2]. }
    subst y. f_equal.
    apply IH; try assumption.
    now apply Permutation_cons_inv in Hp.
Qed.


Lemma filter_perm {A : Type} (f : A -> bool) (l1 l2 : list A) :
  Permutation l1 l2 -> Permutation (filter f l1) (filter f l2).
Proof.
  induction 1 as [|x l l' _ IH|x y l|l l' l'' _ IH1 _ IH2]; simpl.
  - constructor.
  - destruct (f x); [now constructor | assumption].
  - destruct (f x), (f y); try reflexivity. apply perm_swap.
  - now transitivity (filter f l').
Qed.

Lemma filter_none {A : Type} (f : A -> bool) (l : list A) :
  (forall x, In x l -> f x = false) -> filter f l = [].
Proof.
  induction l as [|x l IH]; intros H; simpl; [reflexivity|].
  rewrite (H x (or_introl eq_refl)). apply IH.
  intros y Hy. apply H. now right.
Qed.

End Sorting.

(** ** The pattern matcher *)

Section MatcherProps.

Variable fnmatch : string -> string -> bool.

Lemma existsb_map_comp {A B : Type} (f : B -> bool) (g : A -> B)
    (l : list A) :
  existsb f (map g l) = existsb (fun x => f (g x)) l.
Proof.
  induction l as [|x l IH]; simpl; [reflexivity|]. now rewrite IH.
Qed.

(** Slicing by index enumerates the suffixes of the segments. *)
Lemma existsb_slices (F : list string -> bool) (l : list string) :
  existsb (fun i => F (skipn i l)) (seq 0 (List.length l))
  = existsb F (segment_suffixes l).
Proof.
  induction l as [|x l IH]; [reflexivity|].
  cbn [List.length seq existsb segment_suffixes skipn].
  f_equal.
  rewrite <- seq_shift, existsb_map_comp.
  exact IH.
Qed.

Lemma matches_subpath_suffixes (file_path : Path) (pattern : string) :
  matches_subpath fnmatch file_path pattern
  = existsb
      (fun segments => fnmatch (str (Path_of_parts segments)) pattern)
      (segment_suffixes (parts file_path)).
Proof.
  unfold matches_subpath.
  apply (existsb_slices
           (fun segments => fnmatch (str (Path_of_parts segments)) pattern)).
Qed.

Lemma matches_any_existsb (file_path : Path) (patterns : list string) :
  _matches_any_pattern fnmatch file_path patterns
  = existsb (spec_matches fnmatch file_path) patterns.
Proof.
  induction patterns as [|pattern patterns IH]; [reflexivity|].
  cbn [_matches_any_pattern existsb]. unfold spec_matches at 1.
  rewrite <- matches_subpath_suffixes.
  destruct (fnmatch (str file_path) pattern); [reflexivity|].
  destruct (negb (PyStr.contains "/" pattern)).
  - destruct (fnmatch (name file_path) pattern); [reflexivity | exact IH].
  - destruct (fnmatch (str file_path) ("*/" ++ pattern)%string);
      [reflexivity|].
    destruct (matches_subpath fnmatch file_path pattern);
      [reflexivity | exact IH].
Qed.

Lemma matches_any_app (file_path : Path) (P Q : list string) :
  _matches_any_pattern fnmatch file_path (P ++ Q)
  = _matches_any_pattern fnmatch file_path P
    || _matches_any_pattern fnmatch file_path Q.
Proof. rewrite !matches_any_existsb. apply existsb_app. Qed.

End MatcherProps.

(** C2. For every path and pattern list, [_matches_any_pattern] takes
    exactly the decision of section 4.1: it is true iff some pattern of
    the list succeeds, where a pattern succeeds if the full path string
    matches it; otherwise, for a pattern without [/], iff the basename
    matches it (nothing further is tried); otherwise iff the full path
    matches the pattern behind [*/] or some suffix of the path's
    segments, rejoined as a path, matches it. *)
Theorem matches_any_pattern_decision
    (fnmatch : string -> string -> bool) (file_path : Path)
    (patterns : list string) :
  _matches_any_pattern fnmatch file_path patterns
  = spec_matches_any fnmatch file_path patterns
  /\ (_matches_any_pattern fnmatch file_path patterns = true <->
      exists pattern,
        In pattern patterns /\ spec_matches fnmatch file_path pattern = true).
Proof.
  split.
  - apply matches_any_existsb.
  - rewrite matches_any_existsb. apply existsb_exists.
Qed.

(** C9. For every path and pattern lists [P] (from the configuration)
    and [Q] (from the command line), [main] hands [P ++ Q] to the
    collector, and the matcher on [P ++ Q] is the disjunction of the
    matcher on [P] and on [Q]; so it agrees with the matcher on
    [Q ++ P], and the collector returns the same files for both
    concatenations. *)
Theorem exclusion_is_union
    (fnmatch : string -> string -> bool) (file_path : Path)
    (P Q : list string) :
  merge_exclude (Some P) (Some Q) = P ++ Q
  /\ _matches_any_pattern fnmatch file_path (P ++ Q)
  = _matches_any_pattern fnmatch file_path P
    || _matches_any_pattern fnmatch file_path Q
  /\ _matches_any_pattern fnmatch file_path (P ++ Q)
     = _matches_any_pattern fnmatch file_path (Q ++ P)
  /\ (forall fs root recursive,
        collect_python_files fnmatch fs root recursive (Some (P ++ Q))
        = collect_python_files fnmatch fs root recursive (Some (Q ++ P))).
Proof.
  split; [destruct P, Q; cbn; now rewrite ?app_nil_r|].
  split; [apply matches_any_app|].
  split; [rewrite !matches_any_app; apply orb_comm|].
  intros fs root recursive. unfold collect_python_files.
  destruct (is_file fs root); [reflexivity|].
  destruct (is_dir fs root); [|reflexivity].
  assert (Ht : truthy (Some (P ++ Q)) = truthy (Some (Q ++ P))).
  { destruct P, Q; reflexivity. }
  rewrite Ht. destruct (truthy (Some (Q ++ P))); [|reflexivity].
  f_equal. apply filter_ext. intros f. cbn [patterns_of].
  now rewrite !matches_any_app, orb_comm.
Qed.

(** ** The file collector *)

Section CollectorProps.

Variable fnmatch : string -> string -> bool.

Lemma is_dir_not_file (fs : FileSystem) (p : Path) :
  is_dir fs p = true -> is_file fs p = false.
Proof.
  unfold is_dir, is_file. destruct (stat fs p) as [[| |]|]; easy.
Qed.

(** What a directory root, or a root that is no regular file, yields:
    members of the glob that pass both filters. *)
Lemma collect_dir_In (fs : FileSystem) (root : Path) (recursive : bool)
    (exclude_patterns : option (list string)) (f : Path) :
  is_file fs root = false ->
  In f (collect_python_files fnmatch fs root recursive exclude_patterns) ->
  In f (glob fs root (if recursive then "**/*.py" else "*.py"))
  /\ existsb excluded_part (parts f) = false
  /\ _matches_any_pattern fnmatch f (patterns_of exclude_patterns) = false.
Proof.
  intros Hfile. unfold collect_python_files. rewrite Hfile.
  destruct (is_dir fs root); [|intros []].
  rewrite sorted_In.
  destruct (truthy exclude_patterns) eqn:Ht.
  - rewrite !filter_In, !negb_true_iff. tauto.
  - rewrite filter_In, negb_true_iff. intros [Hin Hparts].
    repeat split; try assumption.
    destruct exclude_patterns as [[|? ?]|]; try discriminate; reflexivity.
Qed.

Lemma excluded_part_false (part : string) :
  excluded_part part = false ->
  part <> "venv" /\ part <> "__pycache__" /\ part <> "node_modules"
  /\ (PyStr.startswith "." part = true -> part = ".").
Proof.
  unfold excluded_part, in_exclude_dirs, exclude_dirs. cbn [existsb].
  rewrite !orb_false_iff, andb_false_iff, negb_false_iff, !String.eqb_neq.
  rewrite String.eqb_eq.
  intros [(H1 & H2 & H3 & _) [H4|H4]]; repeat split; try assumption.
  - intros H. now rewrite H in H4.
  - intros _. exact H4.
Qed.

Lemma excluded_part_true (part : string) :
  part = "venv" \/ part = "__pycache__" \/ part = "node_modules"
  \/ (PyStr.startswith "." part = true /\ part <> ".") ->
  excluded_part part = true.
Proof.
  unfold excluded_part.
  intros [->|[->|[->|[H1 H2]]]]; try reflexivity.
  rewrite H1. apply String.eqb_neq in H2. rewrite H2.
  apply orb_true_r.
Qed.

End CollectorProps.

(** C1, as amended.  For every root that is not a regular file (a
    directory, or a path that does not exist), every recursion flag and
    every supplied pattern list, no path returned by
    [collect_python_files] is matched by [_matches_any_pattern] against
    the list. *)
Theorem collect_drops_excluded_below_directory
    (fnmatch : string -> string -> bool) (fs : FileSystem) (root : Path)
    (recursive : bool) (exclude_patterns : list string) (f : Path) :
  is_file fs root = false ->
  In f (collect_python_files fnmatch fs root recursive (Some exclude_patterns)) ->
  _matches_any_pattern fnmatch f exclude_patterns = false.
Proof.
  intros Hfile Hin.
  now destruct (collect_dir_In fnmatch fs root recursive
                  (Some exclude_patterns) f Hfile Hin) as (_ & _ & H).
Qed.

Lemma collect_drops_excluded_below_directory_witness :
  is_file (Manifest.fs Sample.project) Sample.pkg = false
  /\ In Sample.pkg_mod_py
       (collect_python_files Fnmatch.fnmatch (Manifest.fs Sample.project)
          Sample.pkg true (Some ["conftest.py"]))
  /\ _matches_any_pattern Fnmatch.fnmatch Sample.pkg_mod_py ["conftest.py"]
     = false.
Proof.
  split; [reflexivity|].
  split; [vm_compute; now left|].
  apply (collect_drops_excluded_below_directory Fnmatch.fnmatch
           (Manifest.fs Sample.project) Sample.pkg true ["conftest.py"]).
  - reflexivity.
  - vm_compute. now left.
Defined.

(** C1 fails as stated when the root is a single regular file:
    [pkg/conftest.py], asked for by name, is returned although the
    pattern [conftest.py] matches it. *)
Lemma collect_file_root_ignores_patterns :
  let fs := Manifest.fs Sample.project in
  let root := Sample.pkg_conftest_py in
  let exclude_patterns := ["conftest.py"] in
  is_file fs root = true
  /\ exclude_patterns <> []
  /\ In root (collect_python_files Fnmatch.fnmatch fs root true
                (Some exclude_patterns))
  /\ _matches_any_pattern Fnmatch.fnmatch root exclude_patterns = true.
Proof.
  cbv zeta. split; [reflexivity|].
  split; [discriminate|].
  split; [vm_compute; now left | reflexivity].
Qed.

(** C4, as amended.  For every root that is not a regular file, every
    recursion flag and every exclusion-pattern set, no path returned by
    [collect_python_files] has a segment equal to [venv], [__pycache__]
    or [node_modules], or a segment that starts with a dot other than
    the segment [.] itself. *)
Theorem collect_skips_denylisted_below_directory
    (fnmatch : string -> string -> bool) (fs : FileSystem) (root : Path)
    (recursive : bool) (exclude_patterns : option (list string))
    (f : Path) (part : string) :
  is_file fs root = false ->
  In f (collect_python_files fnmatch fs root recursive exclude_patterns) ->
  In part (parts f) ->
  part <> "venv" /\ part <> "__pycache__" /\ part <> "node_modules"
  /\ (PyStr.startswith "." part = true -> part = ".").
Proof.
  intros Hfile Hin Hpart.
  destruct (collect_dir_In fnmatch fs root recursive exclude_patterns f
              Hfile Hin) as (_ & Hex & _).
  apply excluded_part_false.
  destruct (excluded_part part) eqn:E; [|reflexivity].
  rewrite <- Hex. symmetry. apply existsb_exists. now exists part.
Qed.

Lemma collect_skips_denylisted_below_directory_witness :
  is_file (Manifest.fs Sample.project) Sample.cwd = false
  /\ In Sample.pkg_mod_py
       (collect_python_files Fnmatch.fnmatch (Manifest.fs Sample.project)
          Sample.cwd true None)
  /\ In "pkg" (parts Sample.pkg_mod_py)
  /\ ("pkg" <> "venv" /\ "pkg" <> "__pycache__" /\ "pkg" <> "node_modules"
      /\ (PyStr.startswith "." "pkg" = true -> "pkg" = ".")).
Proof.
  split; [reflexivity|].
  split; [vm_compute; tauto|].
  split; [now left|].
  apply (collect_skips_denylisted_below_directory Fnmatch.fnmatch
           (Manifest.fs Sample.project) Sample.cwd true None
           Sample.pkg_mod_py "pkg").
  - reflexivity.
  - vm_compute. tauto.
  - now left.
Defined.

(** C4 fails as stated when the root is a single regular file:
    [venv/lib.py], asked for by name, is returned although [venv] is one
    of its segments. *)
Lemma collect_file_root_ignores_denylist :
  let fs := Manifest.fs Sample.project in
  let root := Sample.venv_lib_py in
  is_file fs root = true
  /\ In root (collect_python_files Fnmatch.fnmatch fs root true None)
  /\ In "venv" (parts root).
Proof.
  cbv zeta. split; [reflexivity|].
  split; [vm_compute; now left | now left].
Qed.

(** C5. For a root that is an existing regular file,
    [collect_python_files] returns [[root]] when the suffix is [.py] and
    the empty list otherwise; for a root that is neither an existing
    file nor an existing directory it returns the empty list (the
    function is total: nothing is raised). *)
Theorem collect_file_or_missing_root
    (fnmatch : string -> string -> bool) (fs : FileSystem) (root : Path)
    (recursive : bool) (exclude_patterns : option (list string)) :
  let result :=
    collect_python_files fnmatch fs root recursive exclude_patterns in
  (is_file fs root = true ->
   (suffix root = ".py" -> result = [root])
   /\ (suffix root <> ".py" -> result = [])
   /\ (result = [root] <-> suffix root = ".py"))
  /\ (is_file fs root = false -> is_dir fs root = false -> result = []).
Proof.
  cbv zeta. unfold collect_python_files. split.
  - intros ->.
    destruct (String.eqb_spec (suffix root) ".py") as [E|E].
    + repeat split; auto. intros H. now elim H.
    + repeat split; try easy.
  - now intros -> ->.
Qed.



Lemma manifest_glob_below_root (m : Manifest.t) :
  glob_below_root (Manifest.fs m).
Proof.
  intros root pattern f. cbn [glob Manifest.fs]. unfold Manifest.glob_in.
  destruct (Manifest.stat_in m root) as [[| |]|]; try (intros []).
  rewrite in_flat_map. intros (e & _ & He).
  destruct (Manifest.strip_prefix (parts root) (fst e)) as [rel|];
    [|destruct He].
  destruct (Manifest.selected pattern rel); [|destruct He].
  destruct He as [<-|[]]. now exists rel.
Qed.

(** C10. For an existing directory whose own path has a segment equal
    to [venv], [__pycache__] or [node_modules], or a segment that starts
    with a dot and is not [.], [collect_python_files] returns the empty
    list, recursive or not: every globbed path carries the parts of the
    root, and the segment filter inspects them all. *)
Theorem collect_empty_for_denylisted_root
    (fnmatch : string -> string -> bool) (fs : FileSystem) (root : Path)
    (recursive : bool) (exclude_patterns : option (list string))
    (part : string) :
  glob_below_root fs ->
  is_dir fs root = true ->
  In part (parts root) ->
  part = "venv" \/ part = "__pycache__" \/ part = "node_modules"
  \/ (PyStr.startswith "." part = true /\ part <> ".") ->
  collect_python_files fnmatch fs root recursive exclude_patterns = [].
Proof.
  intros Hglob Hdir Hpart Hbad.
  unfold collect_python_files.
  rewrite (is_dir_not_file fs root Hdir), Hdir.
  rewrite (filter_none (fun f => negb (existsb excluded_part (parts f)))).
  - now destruct (truthy exclude_patterns).
  - intros f Hf. apply negb_false_iff, existsb_exists.
    exists part. split; [|now apply excluded_part_true].
    destruct (Hglob _ _ _ Hf) as [rel ->].
    apply in_or_app. now left.
Qed.

Lemma collect_empty_for_denylisted_root_witness :
  glob (Manifest.fs Sample.project) Sample.venv "**/*.py"
  = [Sample.venv_lib_py]
  /\ collect_python_files Fnmatch.fnmatch (Manifest.fs Sample.project)
       Sample.venv true None = []
  /\ collect_python_files Fnmatch.fnmatch (Manifest.fs Sample.project)
       Sample.venv false None = [].
Proof.
  split; [reflexivity|].
  split;
    apply (collect_empty_for_denylisted_root Fnmatch.fnmatch
             (Manifest.fs Sample.project) Sample.venv _ None "venv");
    try apply manifest_glob_below_root;
    try reflexivity; now left.
Defined.

(** ** The driver *)

Section TraceProps.

(** A flagged call is a call. *)
Lemma flagged_called (t : list Event) (f : Path) :
  In f (flagged_files t) -> In f (called_files t).
Proof.
  unfold flagged_files, called_files. rewrite !in_flat_map.
  intros (e & He & Hf). exists e. split; [assumption|].
  destruct e as [| | | | |g c d [[|]|]]; cbn in Hf |- *; tauto.
Qed.

(** A failed call is a call. *)
Lemma failed_called (t : list Event) (f : Path) (e : string) :
  In (f, e) (failed_files t) -> In f (called_files t).
Proof.
  unfold failed_files, called_files. rewrite !in_flat_map.
  intros (ev & Hev & Hf). exists ev. split; [assumption|].
  destruct ev as [| | | | |g c d [[|]|x]]; cbn in Hf |- *; try tauto.
  destruct Hf as [Hf|[]]. left. congruence.
Qed.

Lemma nonempty_exists {A : Type} (l : list A) :
  nonempty l = true <-> exists x, In x l.
Proof.
  destruct l as [|x l]; cbn; split; try easy.
  - now intros [x []].
  - intros _. exists x. now left.
Qed.

Lemma flagged_occurrences (t : list Event) (f : Path) :
  occurrences f (flagged_files t) <= occurrences f (called_files t).
Proof.
  unfold occurrences, flagged_files, called_files.
  induction t as [|e t IH]; [reflexivity|].
  cbn [flat_map]. rewrite !count_occ_app.
  apply Nat.add_le_mono; [|exact IH].
  destruct e as [| | | | |g c d [[|]|]]; simpl; lia.
Qed.

Lemma flagged_once (t : list Event) (f : Path) :
  NoDup (called_files t) -> In f (flagged_files t) ->
  occurrences f (flagged_files t) = 1.
Proof.
  intros Hnd Hin.
  pose proof (flagged_occurrences t f) as Hle.
  unfold occurrences in *.
  rewrite (NoDup_count_occ Path_eq_dec) in Hnd. specialize (Hnd f).
  apply (count_occ_In Path_eq_dec) in Hin. lia.
Qed.

End TraceProps.

Section RunProps.

Context {World A B : Type}.

Lemma value_bind (m : Run.M World A) (k : A -> Run.M World B) (w : World) :
  Run.value (Run.bind m k w)
  = Run.value (k (Run.value (m w)) (Run.final (m w))).
Proof.
  unfold Run.bind. destruct (m w) as [[a w1] t1]. cbn.
  now destruct (k a w1) as [[b w2] t2].
Qed.

Lemma final_bind (m : Run.M World A) (k : A -> Run.M World B) (w : World) :
  Run.final (Run.bind m k w)
  = Run.final (k (Run.value (m w)) (Run.final (m w))).
Proof.
  unfold Run.bind. destruct (m w) as [[a w1] t1]. cbn.
  now destruct (k a w1) as [[b w2] t2].
Qed.

Lemma trace_bind (m : Run.M World A) (k : A -> Run.M World B) (w : World) :
  Run.trace (Run.bind m k w)
  = Run.trace (m w) ++ Run.trace (k (Run.value (m w)) (Run.final (m w))).
Proof.
  unfold Run.bind. destruct (m w) as [[a w1] t1]. cbn.
  now destruct (k a w1) as [[b w2] t2].
Qed.

End RunProps.

Ltac run_step :=
  rewrite ?value_bind, ?final_bind, ?trace_bind;
  cbn [Run.read Run.ret Run.emit Run.value Run.final Run.trace fst snd].

Ltac observe :=
  unfold called_files, flagged_files, failed_files, check_only_flags,
    console_lines, error_lines, success_lines in *;
  rewrite ?flat_map_app; cbn [flat_map app].

Section DriverProps.

Variable fnmatch : string -> string -> bool.
Variable World : Type.
Variable world_fs : World -> FileSystem.
Variables Order MethodTypeOrder : Type.
Variable sort_file :
  Path -> Order -> option MethodTypeOrder -> bool -> bool ->
  World -> Outcome * World.
Variable args : Args.
Variable config : Config Order MethodTypeOrder.

(** The collection loop leaves the world as it is, calls no sorter and
    writes nothing but [logger.error] lines. *)
Lemma collect_paths_trace (exclude_patterns : list string)
    (todo all_files : list Path) (w : World) :
  let r := collect_paths fnmatch World world_fs args exclude_patterns
             todo all_files w in
  Run.final r = w
  /\ called_files (Run.trace r) = []
  /\ flagged_files (Run.trace r) = []
  /\ failed_files (Run.trace r) = []
  /\ check_only_flags (Run.trace r) = []
  /\ console_lines (Run.trace r) = []
  /\ success_lines (Run.trace r) = [].
Proof.
  cbv zeta. revert all_files.
  induction todo as [|path todo IH]; intros all_files.
  - cbn. repeat split; reflexivity.
  - cbn [collect_paths]. run_step.
    destruct (negb (path_exists (world_fs w) path)).
    + unfold logger_error. run_step. observe. apply IH.
    + run_step. observe. apply IH.
Qed.

(** What the processing loop leaves behind: every file of [todo] is
    handed to the sorter with [check_only = args.check]; the flagged
    ones are appended to [modified_files]; [errors] is raised by any
    failure; every failure is logged; outside check mode every flagged
    file is announced. *)
Lemma process_files_run (todo modified_files : list Path) (errors : bool)
    (w : World) :
  let r := process_files World Order MethodTypeOrder sort_file args config
             todo modified_files errors w in
  let t := Run.trace r in
  called_files t = todo
  /\ check_only_flags t = map (fun _ => check args) todo
  /\ fst (Run.value r) = modified_files ++ flagged_files t
  /\ snd (Run.value r) = errors || nonempty (failed_files t)
  /\ error_lines t
     = map (fun fe => ("Error processing " ++ str (fst fe) ++ ": "
                         ++ snd fe)%string)
         (failed_files t)
  /\ success_lines t
     = (if check args then []
        else map (fun f => ("Sorted " ++ str f)%string) (flagged_files t))
  /\ console_lines t = [].
Proof.
  cbv zeta. revert modified_files errors w.
  induction todo as [|file_path todo IH]; intros modified_files errors w.
  - cbn. rewrite app_nil_r, orb_false_r. destruct (check args); auto 10.
  - cbn [process_files]. run_step.
    unfold call_sort_file.
    destruct (sort_file file_path (order config) (method_type_order config)
                (check args) (diff args) w) as [[[|]|e] w1];
      cbn [Run.value Run.final Run.trace fst snd negb].
    + (* the sorter reports a modification *)
      run_step.
      destruct (IH (modified_files ++ [file_path]) errors
                  (Run.final
                     ((if negb (check args)
                       then logger_success World
                              ("Sorted " ++ str file_path)%string
                       else Run.ret tt) w1)))
        as (H1 & H2 & H3 & H4 & H5 & H6 & H7).
      destruct (check args); cbn [negb] in *;
        unfold logger_success in *; run_step; cbn [Run.final Run.emit Run.ret fst snd] in *;
        observe; cbn [map];
        rewrite H1, H2, H3, H4, H5, H6, H7, <- app_assoc;
        repeat split; reflexivity.
    + (* nothing to do for this file *)
      destruct (IH modified_files errors w1)
        as (H1 & H2 & H3 & H4 & H5 & H6 & H7).
      observe. rewrite H1, H2, H3, H4, H5, H6, H7.
      repeat split; reflexivity.
    + (* the sorter raises *)
      unfold logger_error. run_step.
      destruct (IH modified_files true w1)
        as (H1 & H2 & H3 & H4 & H5 & H6 & H7).
      observe. cbn [map fst snd nonempty orb] in *.
      rewrite H1, H2, H3, H4, H5, H6, H7, orb_true_r.
      repeat split; reflexivity.
Qed.

Lemma print_files_trace (files : list Path) (w : World) :
  Run.trace (print_files World files w)
  = map (fun f => ConsolePrint ("  - " ++ str f)%string) files.
Proof.
  induction files as [|f files IH]; [reflexivity|].
  cbn [print_files map]. unfold console_print. run_step.
  cbn [app]. f_equal. exact IH.
Qed.

Lemma flat_map_prints {B : Type} (h : Event -> list B)
    (g : Path -> string) (l : list Path) :
  flat_map h (map (fun f => ConsolePrint (g f)) l)
  = flat_map (fun f => h (ConsolePrint (g f))) l.
Proof.
  induction l as [|f l IH]; [reflexivity|]. cbn. now rewrite IH.
Qed.

Lemma flat_map_nothing {A B : Type} (l : list A) :
  flat_map (fun _ : A => @nil B) l = [].
Proof. induction l; auto. Qed.

Lemma flat_map_singleton {A B : Type} (g : A -> B) (l : list A) :
  flat_map (fun x => [g x]) l = map g l.
Proof. induction l as [|x l IH]; [reflexivity|]. cbn. now rewrite IH. Qed.

(** A whole run, read off its trace. *)
Lemma main_run (w : World) :
  let r := main fnmatch World world_fs Order MethodTypeOrder sort_file
             args config w in
  let t := Run.trace r in
  let all_files :=
    collected fnmatch World world_fs Order MethodTypeOrder args config w in
  called_files t = all_files
  /\ check_only_flags t = map (fun _ => check args) all_files
  /\ Run.value r
     = (if (check args && nonempty (flagged_files t))
           || nonempty (failed_files t)
        then 1 else 0)%Z
  /\ console_lines t
     = (if check args
        then map (fun f => ("  - " ++ str f)%string) (flagged_files t)
        else [])
  /\ incl (map (fun fe => ("Error processing " ++ str (fst fe) ++ ": "
                             ++ snd fe)%string)
             (failed_files t))
          (error_lines t)
  /\ (check args = false ->
      incl (map (fun f => ("Sorted " ++ str f)%string) (flagged_files t))
           (success_lines t))
  /\ (flagged_files t <> [] ->
      In (summary_event (check args) (List.length (flagged_files t))) t).
Proof.
  cbv zeta. unfold main, collected, summary_event.
  pose proof (collect_paths_trace
                (merge_exclude (config_exclude config) (exclude args))
                (paths args) [] w) as Hc.
  cbv zeta in Hc. run_step.
  remember (collect_paths fnmatch World world_fs args
              (merge_exclude (config_exclude config) (exclude args))
              (paths args) [] w) as r0 eqn:Hr0.
  clear Hr0.
  destruct Hc as (Hw & C1 & C2 & C3 & C4 & C5 & C6).
  rewrite Hw.
  destruct (Run.value r0) as [|f0 rest].
  - cbn [nonempty negb]. unfold logger_warning. run_step.
    observe. rewrite C1, C2, C3, C4, C5. cbn.
    rewrite andb_false_r.
    destruct (check args); repeat apply conj; try reflexivity;
      try (intros Hne; now elim Hne); intros; apply incl_nil_l.
  - cbn [nonempty negb]. run_step.
    pose proof (process_files_run (f0 :: rest) [] false w) as Hp.
    cbv zeta in Hp.
    remember (process_files World Order MethodTypeOrder sort_file args
                config (f0 :: rest) [] false w) as r1 eqn:Hr1.
    clear Hr1.
    destruct Hp as (P1 & P2 & P3 & P4 & P5 & P6 & P7).
    destruct (Run.value r1) as [modified_files errors].
    cbn [fst snd app orb] in P3, P4. subst modified_files errors.
    destruct (check args) eqn:Hcheck;
      destruct (flagged_files (Run.trace r1)) as [|g F] eqn:HF;
      destruct (failed_files (Run.trace r1)) as [|x E] eqn:HE;
      cbn [andb nonempty negb orb];
      unfold logger_warning, logger_info, logger_success;
      run_step; rewrite ?print_files_trace;
      observe; rewrite ?flat_map_prints, ?flat_map_nothing, ?flat_map_singleton;
      rewrite ?C1, ?C2, ?C3, ?C4, ?C5, ?C6, ?P1, ?P2, ?P5, ?P6, ?P7, ?HF, ?HE, ?app_nil_r;
      cbn [app andb nonempty negb orb map].
    all: repeat apply conj; try reflexivity.
    all: lazymatch goal with
         | |- _ = false -> _ => try (intros; discriminate); intros _
         | |- _ <> _ -> _ => try (intros Hne; now elim Hne); intros _
         | |- _ => idtac
         end.
    all: lazymatch goal with
         | |- incl [] _ => apply incl_nil_l
         | |- incl _ _ =>
             first [ apply incl_appr, incl_refl
                   | apply incl_appr, incl_appl, incl_refl
                   | intros y [Hy|Hy];
                     [left; exact Hy
                     | right; apply in_or_app; left; exact Hy] ]
         | |- In _ _ =>
             apply in_or_app; right; apply in_or_app; right;
             first [ now left | apply in_or_app; right; now left ]
         end.
Qed.

End DriverProps.

(** C3. [main] returns 1 iff ([--check] was given and the sorter
    reported some collected file as needing change) or some sorter call
    raised; in every other case, also when nothing was collected, it
    returns 0. *)
Theorem main_exit_code
    (fnmatch : string -> string -> bool) (World : Type)
    (world_fs : World -> FileSystem) (Order MethodTypeOrder : Type)
    (sort_file : Path -> Order -> option MethodTypeOrder -> bool -> bool ->
                 World -> Outcome * World)
    (args : Args) (config : Config Order MethodTypeOrder) (w : World) :
  let r := main fnmatch World world_fs Order MethodTypeOrder sort_file
             args config w in
  let t := Run.trace r in
  let all_files :=
    collected fnmatch World world_fs Order MethodTypeOrder args config w in
  called_files t = all_files
  /\ (Run.value r = 1%Z <->
      (check args = true /\ exists f, In f (flagged_files t))
      \/ (exists f e, In (f, e) (failed_files t)))
  /\ (Run.value r <> 1%Z -> Run.value r = 0%Z)
  /\ (all_files = [] -> Run.value r = 0%Z).
Proof.
  cbv zeta.
  destruct (main_run fnmatch World world_fs Order MethodTypeOrder sort_file
              args config w) as (Hcall & _ & Hcode & _).
  set (r := main fnmatch World world_fs Order MethodTypeOrder sort_file
              args config w) in *.
  assert (Hiff :
    (check args && nonempty (flagged_files (Run.trace r)))
    || nonempty (failed_files (Run.trace r)) = true <->
    (check args = true /\ exists f, In f (flagged_files (Run.trace r)))
    \/ (exists f e, In (f, e) (failed_files (Run.trace r)))).
  { rewrite orb_true_iff, andb_true_iff, !nonempty_exists.
    split; (intros [H|H]; [now left | right]).
    - destruct H as [[f e] H]. now exists f, e.
    - destruct H as (f & e & H). now exists (f, e). }
  assert (Hone : Run.value r = 1%Z <->
    (check args = true /\ exists f, In f (flagged_files (Run.trace r)))
    \/ (exists f e, In (f, e) (failed_files (Run.trace r)))).
  { rewrite <- Hiff, Hcode.
    destruct ((check args && nonempty (flagged_files (Run.trace r)))
              || nonempty (failed_files (Run.trace r))); easy. }
  assert (Hzero : Run.value r <> 1%Z -> Run.value r = 0%Z).
  { rewrite Hcode.
    destruct ((check args && nonempty (flagged_files (Run.trace r)))
              || nonempty (failed_files (Run.trace r))); easy. }
  split; [exact Hcall|].
  split; [exact Hone|].
  split; [exact Hzero|].
  intros Hnone. apply Hzero. intros H1. apply Hone in H1.
  rewrite Hnone in Hcall.
  destruct H1 as [[_ [f Hf]]|(f & e & Hf)].
  - apply flagged_called in Hf. rewrite Hcall in Hf. destruct Hf.
  - apply failed_called in Hf. rewrite Hcall in Hf. destruct Hf.
Qed.

(** C6. A sorter call that raises does not abort the batch: every
    collected file is still handed to the sorter, the failure is logged
    with the file and the error, every modification the sorter reports
    (before or after the failure) is recorded and reported, and the
    exit code is 1. *)
Theorem sorter_failure_does_not_abort
    (fnmatch : string -> string -> bool) (World : Type)
    (world_fs : World -> FileSystem) (Order MethodTypeOrder : Type)
    (sort_file : Path -> Order -> option MethodTypeOrder -> bool -> bool ->
                 World -> Outcome * World)
    (args : Args) (config : Config Order MethodTypeOrder) (w : World)
    (f : Path) (e : string) :
  let r := main fnmatch World world_fs Order MethodTypeOrder sort_file
             args config w in
  let t := Run.trace r in
  In (f, e) (failed_files t) ->
  called_files t
  = collected fnmatch World world_fs Order MethodTypeOrder args config w
  /\ In ("Error processing " ++ str f ++ ": " ++ e)%string (error_lines t)
  /\ (forall g, In g (flagged_files t) ->
        reported (check args) g t
        /\ In (summary_event (check args) (List.length (flagged_files t))) t)
  /\ Run.value r = 1%Z.
Proof.
  cbv zeta. intros Hfail.
  destruct (main_run fnmatch World world_fs Order MethodTypeOrder sort_file
              args config w)
    as (Hcall & _ & Hcode & Hcons & Herr & Hsucc & Hsum).
  set (r := main fnmatch World world_fs Order MethodTypeOrder sort_file
              args config w) in *.
  split; [exact Hcall|].
  split; [|split].
  - apply Herr.
    apply (in_map (fun fe => ("Error processing " ++ str (fst fe) ++ ": "
                                ++ snd fe)%string) _ (f, e)).
    exact Hfail.
  - intros g Hg. split.
    + unfold reported. destruct (check args).
      * rewrite Hcons.
        now apply (in_map (fun f => ("  - " ++ str f)%string)).
      * apply (Hsucc eq_refl).
        now apply (in_map (fun f => ("Sorted " ++ str f)%string)).
    + apply Hsum. intros Hnil. rewrite Hnil in Hg. destruct Hg.
  - rewrite Hcode.
    assert (Hne : nonempty (failed_files (Run.trace r)) = true)
      by (apply nonempty_exists; now exists (f, e)).
    rewrite Hne. now rewrite orb_true_r.
Qed.

Lemma sorter_failure_does_not_abort_witness :
  let r := Sample.run Sample.sorter_fails_on_b
             (mkArgs [Sample.cwd] false false true None) in
  called_files (Run.trace r)
  = [Sample.a_py; Sample.b_py; Sample.pkg_conftest_py; Sample.pkg_mod_py]
  /\ In "Error processing b.py: invalid syntax" (error_lines (Run.trace r))
  /\ In "Sorted pkg/mod.py" (success_lines (Run.trace r))
  /\ Run.value r = 1%Z.
Proof.
  cbv zeta. unfold Sample.run.
  destruct (sorter_failure_does_not_abort Fnmatch.fnmatch Manifest.t
              Manifest.fs unit unit Sample.sorter_fails_on_b
              (mkArgs [Sample.cwd] false false true None) Sample.config
              Sample.project Sample.b_py "invalid syntax")
    as (H1 & H2 & H3 & H4).
  - vm_compute. now left.
  - split; [exact H1|].
    split; [exact H2|].
    split; [|exact H4].
    apply (H3 Sample.pkg_mod_py). vm_compute. tauto.
Defined.

(** C7, as amended.  Given [--check] and at least one collected file
    that the sorter reports as needing change, [main] exits with code 1,
    every sorter call receives [check_only = True], and the console
    lists one line per flagged entry of the collected list, in order: a
    flagged file is listed at most as often as it occurs in the
    collected list, and exactly once when the collected list holds no
    path twice. *)
Theorem check_mode_lists_flagged_entries
    (fnmatch : string -> string -> bool) (World : Type)
    (world_fs : World -> FileSystem) (Order MethodTypeOrder : Type)
    (sort_file : Path -> Order -> option MethodTypeOrder -> bool -> bool ->
                 World -> Outcome * World)
    (args : Args) (config : Config Order MethodTypeOrder) (w : World) :
  let r := main fnmatch World world_fs Order MethodTypeOrder sort_file
             args config w in
  let t := Run.trace r in
  let all_files :=
    collected fnmatch World world_fs Order MethodTypeOrder args config w in
  check args = true ->
  flagged_files t <> [] ->
  Run.value r = 1%Z
  /\ console_lines t
     = map (fun f => ("  - " ++ str f)%string) (flagged_files t)
  /\ Forall (fun check_only => check_only = true) (check_only_flags t)
  /\ (forall f, occurrences f (flagged_files t) <= occurrences f all_files)
  /\ (NoDup all_files ->
      forall f, In f (flagged_files t) ->
        occurrences f (flagged_files t) = 1).
Proof.
  cbv zeta. intros Hcheck Hflag.
  destruct (main_run fnmatch World world_fs Order MethodTypeOrder sort_file
              args config w)
    as (Hcall & Hflags & Hcode & Hcons & _).
  set (r := main fnmatch World world_fs Order MethodTypeOrder sort_file
              args config w) in *.
  rewrite Hcheck in *.
  repeat apply conj.
  - rewrite Hcode.
    destruct (flagged_files (Run.trace r)); [now elim Hflag | reflexivity].
  - exact Hcons.
  - rewrite Hflags. apply Forall_forall. intros c Hc.
    apply in_map_iff in Hc. now destruct Hc as (_ & <- & _).
  - intros f. rewrite <- Hcall. apply flagged_occurrences.
  - intros Hnd f Hf. rewrite <- Hcall in Hnd. now apply flagged_once.
Qed.

Lemma check_mode_lists_flagged_entries_witness :
  let r := Sample.run Sample.sorter_fails_on_b
             (mkArgs [Sample.cwd] true false true None) in
  Run.value r = 1%Z
  /\ console_lines (Run.trace r)
     = ["  - a.py"; "  - pkg/conftest.py"; "  - pkg/mod.py"]
  /\ check_only_flags (Run.trace r) = [true; true; true; true]
  /\ occurrences Sample.a_py (flagged_files (Run.trace r)) = 1.
Proof.
  cbv zeta. unfold Sample.run.
  destruct (check_mode_lists_flagged_entries Fnmatch.fnmatch Manifest.t
              Manifest.fs unit unit Sample.sorter_fails_on_b
              (mkArgs [Sample.cwd] true false true None) Sample.config
              Sample.project)
    as (H1 & H2 & _ & _ & H5).
  - reflexivity.
  - vm_compute. discriminate.
  - split; [exact H1|].
    split; [rewrite H2; reflexivity|].
    split; [reflexivity|].
    apply H5.
    + vm_compute. repeat constructor; intros H; cbn in H;
        repeat (destruct H as [H|H]; try discriminate H); exact H.
    + vm_compute. now left.
Defined.

(** C7 fails as stated when a file is collected twice: with the input
    paths [a.py a.py] in check mode the flagged file [a.py] is listed
    twice. *)
Lemma check_mode_lists_duplicate_twice :
  let args := mkArgs [Sample.a_py; Sample.a_py] true false true None in
  let r := Sample.run Sample.sorter_flags_all args in
  check args = true
  /\ In Sample.a_py (flagged_files (Run.trace r))
  /\ Run.value r = 1%Z
  /\ count_occ String.string_dec (console_lines (Run.trace r)) "  - a.py" = 2.
Proof.
  cbv zeta. split; [reflexivity|].
  split; [vm_compute; now left|].
  split; reflexivity.
Qed.

(* ================================================================== *)
(** * Further properties of the code *)

(** ** The directory branch of the collector *)

Section DirectoryBranch.

Variable fnmatch : string -> string -> bool.

Lemma filter_both {A : Type} (f g : A -> bool) (l : list A) :
  filter f (filter g l) = filter (fun x => g x && f x) l.
Proof.
  induction l as [|x l IH]; [reflexivity|]. cbn.
  destruct (g x); cbn; [destruct (f x)|]; now rewrite IH.
Qed.

Lemma StronglySorted_filter (f : Path -> bool) (l : list Path) :
  StronglySorted Path_le l -> StronglySorted Path_le (filter f l).
Proof.
  induction 1 as [|x l Hs IH Hall]; cbn; [constructor|].
  destruct (f x); [|assumption].
  constructor; [assumption|].
  rewrite Forall_forall in *. intros y Hy.
  apply Hall. now apply filter_In in Hy.
Qed.

(** Sorting and filtering commute. *)
Lemma sorted_filter (f : Path -> bool) (l : list Path) :
  sorted (filter f l) = filter f (sorted l).
Proof.
  apply StronglySorted_perm_eq.
  - apply sorted_StronglySorted.
  - apply StronglySorted_filter, sorted_StronglySorted.
  - rewrite sorted_perm. apply filter_perm, Permutation_sym, sorted_perm.
Qed.

Lemma patterns_of_falsy (exclude_patterns : option (list string)) :
  truthy exclude_patterns = false -> patterns_of exclude_patterns = [].
Proof. now destruct exclude_patterns as [[|? ?]|]. Qed.

(** The directory branch in one step: the glob results that pass
    [kept], sorted. *)
Lemma collect_directory_eq (fs : FileSystem) (root : Path)
    (recursive : bool) (exclude_patterns : option (list string)) :
  is_dir fs root = true ->
  collect_python_files fnmatch fs root recursive exclude_patterns
  = sorted (filter (kept fnmatch exclude_patterns)
              (glob fs root (if recursive then "**/*.py" else "*.py"))).
Proof.
  intros Hdir. unfold collect_python_files.
  rewrite (is_dir_not_file fs root Hdir), Hdir.
  f_equal. unfold kept.
  destruct (truthy exclude_patterns) eqn:Ht.
  - apply filter_both.
  - rewrite (patterns_of_falsy _ Ht). apply filter_ext.
    intros f. cbn. now rewrite andb_true_r.
Qed.

Lemma Path_le_neq_lt (p q : Path) : Path_le p q -> p <> q -> Path_lt p q = true.
Proof.
  unfold Path_le, Path_lt. intros Hle Hne.
  rewrite (parts_compare_antisym (parts q) (parts p)) in Hle.
  destruct (parts_compare (parts p) (parts q)) eqn:E; cbn in Hle; try easy.
  apply parts_compare_eq in E. destruct p, q; cbn in E. now subst.
Qed.

Lemma segment_suffixes_app (pre l : list string) (s : list string) :
  In s (segment_suffixes l) -> In s (segment_suffixes (pre ++ l)).
Proof.
  induction pre as [|x pre IH]; intros H; [exact H|].
  cbn. right. now apply IH.
Qed.

Lemma segment_suffixes_self (l : list string) :
  l <> [] -> In l (segment_suffixes l).
Proof. destruct l; [easy|]. intros _. now left. Qed.

End DirectoryBranch.

(** X1. For a directory root the collector returns exactly the paths
    the glob yields that pass both filters, each as often as the glob
    yields it: the result is a rearrangement of the filtered glob
    results, so nothing else is dropped and nothing is added. *)
Theorem collect_directory_exactly_filtered_glob
    (fnmatch : string -> string -> bool) (fs : FileSystem) (root : Path)
    (recursive : bool) (exclude_patterns : option (list string)) :
  is_dir fs root = true ->
  let globbed := glob fs root (if recursive then "**/*.py" else "*.py") in
  let result :=
    collect_python_files fnmatch fs root recursive exclude_patterns in
  Permutation result (filter (kept fnmatch exclude_patterns) globbed)
  /\ (forall f,
        In f result <->
        In f globbed
        /\ (forall part, In part (parts f) -> excluded_part part = false)
        /\ _matches_any_pattern fnmatch f (patterns_of exclude_patterns)
           = false).
Proof.
  intros Hdir. cbv zeta.
  rewrite (collect_directory_eq fnmatch fs root recursive exclude_patterns Hdir).
  split; [apply sorted_perm|].
  intros f. rewrite sorted_In, filter_In. unfold kept.
  rewrite andb_true_iff, !negb_true_iff.
  assert (Hparts : existsb excluded_part (parts f) = false <->
                   forall part, In part (parts f) -> excluded_part part = false).
  { split.
    - intros H part Hin. destruct (excluded_part part) eqn:E; [|reflexivity].
      rewrite <- H. symmetry. apply existsb_exists. now exists part.
    - intros H. destruct (existsb excluded_part (parts f)) eqn:E;
        [|reflexivity].
      apply existsb_exists in E. destruct E as (part & Hin & Hex).
      now rewrite (H part Hin) in Hex. }
  rewrite Hparts. tauto.
Qed.

Lemma collect_directory_exactly_filtered_glob_witness :
  is_dir (Manifest.fs Sample.project) Sample.cwd = true
  /\ Permutation
       (collect_python_files Fnmatch.fnmatch (Manifest.fs Sample.project)
          Sample.cwd true (Some ["conftest.py"]))
       (filter (kept Fnmatch.fnmatch (Some ["conftest.py"]))
          (glob (Manifest.fs Sample.project) Sample.cwd
             (if true then "**/*.py" else "*.py"))).
Proof.
  split; [reflexivity|].
  exact (proj1 (collect_directory_exactly_filtered_glob Fnmatch.fnmatch
                  (Manifest.fs Sample.project) Sample.cwd true
                  (Some ["conftest.py"]) eq_refl)).
Defined.

(** X2. For a root that is not a regular file, excluding with the
    patterns [P ++ Q] gives the result of excluding with [P], with the
    files matched by [Q] taken out and the order kept; so more patterns
    never add a file. *)
Theorem collect_more_patterns_filter_result
    (fnmatch : string -> string -> bool) (fs : FileSystem) (root : Path)
    (recursive : bool) (P Q : list string) :
  is_file fs root = false ->
  collect_python_files fnmatch fs root recursive (Some (P ++ Q))
  = filter (fun f => negb (_matches_any_pattern fnmatch f Q))
      (collect_python_files fnmatch fs root recursive (Some P)).
Proof.
  intros Hfile.
  destruct (is_dir fs root) eqn:Hdir.
  - rewrite !(collect_directory_eq fnmatch fs root recursive _ Hdir).
    rewrite <- sorted_filter, filter_both. f_equal.
    apply filter_ext. intros f. unfold kept. cbn [patterns_of].
    rewrite matches_any_app, negb_orb. apply andb_assoc.
  - unfold collect_python_files. now rewrite Hfile, Hdir.
Qed.

Lemma collect_more_patterns_filter_result_witness :
  is_file (Manifest.fs Sample.project) Sample.cwd = false
  /\ collect_python_files Fnmatch.fnmatch (Manifest.fs Sample.project)
       Sample.cwd true (Some (["conftest.py"] ++ ["pkg/*"]))
     = filter
         (fun f => negb (_matches_any_pattern Fnmatch.fnmatch f ["pkg/*"]))
         (collect_python_files Fnmatch.fnmatch (Manifest.fs Sample.project)
            Sample.cwd true (Some ["conftest.py"])).
Proof.
  split; [reflexivity|].
  exact (collect_more_patterns_filter_result Fnmatch.fnmatch
           (Manifest.fs Sample.project) Sample.cwd true
           ["conftest.py"] ["pkg/*"] eq_refl).
Defined.

(** X3. When the glob keeps to its contract (every result carries the
    parts of the path it was called on), every path the collector
    returns lies at or below the requested root, whatever kind of root
    it is. *)
Theorem collect_stays_below_root
    (fnmatch : string -> string -> bool) (fs : FileSystem) (root : Path)
    (recursive : bool) (exclude_patterns : option (list string)) (f : Path) :
  glob_below_root fs ->
  In f (collect_python_files fnmatch fs root recursive exclude_patterns) ->
  exists rel, parts f = parts root ++ rel.
Proof.
  intros Hglob Hin.
  destruct (is_file fs root) eqn:Hfile.
  - unfold collect_python_files in Hin. rewrite Hfile in Hin.
    destruct (String.eqb (suffix root) ".py"); [|destruct Hin].
    destruct Hin as [<-|[]]. exists []. now rewrite app_nil_r.
  - destruct (collect_dir_In fnmatch fs root recursive exclude_patterns f
                Hfile Hin) as (Hg & _).
    exact (Hglob _ _ _ Hg).
Qed.

Lemma collect_stays_below_root_witness :
  In Sample.pkg_mod_py
    (collect_python_files Fnmatch.fnmatch (Manifest.fs Sample.project)
       Sample.pkg true None)
  /\ exists rel, parts Sample.pkg_mod_py = parts Sample.pkg ++ rel.
Proof.
  assert (Hin : In Sample.pkg_mod_py
                  (collect_python_files Fnmatch.fnmatch
                     (Manifest.fs Sample.project) Sample.pkg true None))
    by (vm_compute; tauto).
  split; [exact Hin|].
  exact (collect_stays_below_root Fnmatch.fnmatch
           (Manifest.fs Sample.project) Sample.pkg true None
           Sample.pkg_mod_py (manifest_glob_below_root Sample.project) Hin).
Defined.

(** X4. When the glob yields no path twice, the result for a directory
    root holds no path twice and is strictly ascending. *)
Theorem collect_strictly_ascending
    (fnmatch : string -> string -> bool) (fs : FileSystem) (root : Path)
    (recursive : bool) (exclude_patterns : option (list string)) :
  is_dir fs root = true ->
  NoDup (glob fs root (if recursive then "**/*.py" else "*.py")) ->
  let result :=
    collect_python_files fnmatch fs root recursive exclude_patterns in
  NoDup result
  /\ StronglySorted (fun p q => Path_lt p q = true) result.
Proof.
  intros Hdir Hnd. cbv zeta.
  rewrite (collect_directory_eq fnmatch fs root recursive exclude_patterns Hdir).
  set (l := filter (kept fnmatch exclude_patterns)
              (glob fs root (if recursive then "**/*.py" else "*.py"))).
  assert (Hnd' : NoDup (sorted l)).
  { apply (Permutation_NoDup (Permutation_sym (sorted_perm l))).
    now apply NoDup_filter. }
  split; [exact Hnd'|].
  pose proof (sorted_StronglySorted l) as Hs.
  induction Hs as [|x m Hs IH Hall]; [constructor|].
  inversion Hnd' as [|? ? Hx Hm]; subst.
  constructor; [now apply IH|].
  rewrite Forall_forall in *. intros y Hy.
  apply Path_le_neq_lt; [now apply Hall|].
  intros ->. contradiction.
Qed.

Lemma collect_strictly_ascending_witness :
  let result :=
    collect_python_files Fnmatch.fnmatch (Manifest.fs Sample.project)
      Sample.cwd true None in
  NoDup result /\ StronglySorted (fun p q => Path_lt p q = true) result.
Proof.
  assert (Hnd : NoDup (glob (Manifest.fs Sample.project) Sample.cwd
                         (if true then "**/*.py" else "*.py"))).
  { vm_compute.
    repeat constructor; intros H; cbn in H;
      repeat (destruct H as [H|H]; try discriminate H); exact H. }
  exact (collect_strictly_ascending Fnmatch.fnmatch
           (Manifest.fs Sample.project) Sample.cwd true None eq_refl Hnd).
Defined.

(** ** The matcher and its pattern list *)

(** X5. The matcher depends on the patterns as a set: what matches
    under a list also matches under any list that holds the same
    patterns and more, and two lists with the same patterns, in any
    order and with any repetition, give the same answer. *)
Theorem matcher_depends_on_pattern_set
    (fnmatch : string -> string -> bool) (file_path : Path)
    (P Q : list string) :
  incl P Q ->
  (_matches_any_pattern fnmatch file_path P = true ->
   _matches_any_pattern fnmatch file_path Q = true)
  /\ (incl Q P ->
      _matches_any_pattern fnmatch file_path P
      = _matches_any_pattern fnmatch file_path Q).
Proof.
  intros HPQ.
  assert (Hmono : forall A B : list string, incl A B ->
            _matches_any_pattern fnmatch file_path A = true ->
            _matches_any_pattern fnmatch file_path B = true).
  { intros A B HAB. rewrite !matches_any_existsb, !existsb_exists.
    intros (pattern & Hin & Hm). exists pattern. split; [now apply HAB|exact Hm]. }
  split; [now apply Hmono|].
  intros HQP.
  destruct (_matches_any_pattern fnmatch file_path P) eqn:EP.
  - symmetry. now apply (Hmono P Q).
  - destruct (_matches_any_pattern fnmatch file_path Q) eqn:EQ;
      [|reflexivity].
    rewrite <- EP. now apply (Hmono Q P).
Qed.

Lemma matcher_depends_on_pattern_set_witness :
  incl ["pkg/*"; "*.txt"] ["*.txt"; "pkg/*"; "*.txt"]
  /\ _matches_any_pattern Fnmatch.fnmatch Sample.pkg_mod_py
       ["pkg/*"; "*.txt"]
     = _matches_any_pattern Fnmatch.fnmatch Sample.pkg_mod_py
         ["*.txt"; "pkg/*"; "*.txt"].
Proof.
  assert (H1 : incl ["pkg/*"; "*.txt"] ["*.txt"; "pkg/*"; "*.txt"])
    by (intros pattern H; cbn in H |- *; tauto).
  assert (H2 : incl ["*.txt"; "pkg/*"; "*.txt"] ["pkg/*"; "*.txt"])
    by (intros pattern H; cbn in H |- *; tauto).
  split; [exact H1|].
  exact (proj2 (matcher_depends_on_pattern_set Fnmatch.fnmatch
                  Sample.pkg_mod_py ["pkg/*"; "*.txt"]
                  ["*.txt"; "pkg/*"; "*.txt"] H1) H2).
Defined.

(** X6. A pattern with a separator that matches the string of a
    non-empty path also matches every path that ends with the segments
    of that path: what precedes them plays no part. *)
Theorem matcher_fragment_at_any_depth
    (fnmatch : string -> string -> bool) (q : Path) (pre : list string)
    (pattern : string) (patterns : list string) :
  In pattern patterns ->
  PyStr.contains "/" pattern = true ->
  parts q <> [] ->
  fnmatch (str q) pattern = true ->
  _matches_any_pattern fnmatch (mkPath (pre ++ parts q)) patterns = true.
Proof.
  intros Hin Hsep Hne Hm.
  rewrite matches_any_existsb. apply existsb_exists.
  exists pattern. split; [exact Hin|].
  unfold spec_matches. rewrite Hsep. cbn [negb].
  destruct (fnmatch (str (mkPath (pre ++ parts q))) pattern); [reflexivity|].
  apply orb_true_iff. right. apply existsb_exists.
  exists (parts q). split.
  - cbn [parts]. now apply segment_suffixes_app, segment_suffixes_self.
  - destruct q as [segments]. exact Hm.
Qed.

Lemma matcher_fragment_at_any_depth_witness :
  Fnmatch.fnmatch (str (mkPath ["tests"; "foo.py"])) "tests/*" = true
  /\ _matches_any_pattern Fnmatch.fnmatch
       (mkPath (["src"; "pkg"] ++ parts (mkPath ["tests"; "foo.py"])))
       ["*.txt"; "tests/*"]
     = true.
Proof.
  assert (Hm : Fnmatch.fnmatch (str (mkPath ["tests"; "foo.py"])) "tests/*"
               = true) by (vm_compute; reflexivity).
  split; [exact Hm|].
  refine (matcher_fragment_at_any_depth Fnmatch.fnmatch
            (mkPath ["tests"; "foo.py"]) ["src"; "pkg"] "tests/*"
            ["*.txt"; "tests/*"] _ _ _ Hm).
  - right. now left.
  - vm_compute. reflexivity.
  - discriminate.
Defined.

(** ** The driver, step by step *)

Section DriverShape.

Variable fnmatch : string -> string -> bool.
Variable World : Type.
Variable world_fs : World -> FileSystem.
Variables Order MethodTypeOrder : Type.
Variable sort_file :
  Path -> Order -> option MethodTypeOrder -> bool -> bool ->
  World -> Outcome * World.
Variable args : Args.
Variable config : Config Order MethodTypeOrder.

Lemma collect_missing (fs : FileSystem) (p : Path) (rec : bool)
    (exclude_patterns : option (list string)) :
  path_exists fs p = false ->
  collect_python_files fnmatch fs p rec exclude_patterns = [].
Proof.
  unfold path_exists, collect_python_files, is_file, is_dir.
  now destruct (stat fs p).
Qed.

Lemma collect_or_None (fs : FileSystem) (p : Path) (rec : bool)
    (l : list string) :
  collect_python_files fnmatch fs p rec (or_None l)
  = collect_python_files fnmatch fs p rec (Some l).
Proof. now destruct l. Qed.

Lemma merge_exclude_app (from_config from_cli : option (list string)) :
  merge_exclude from_config from_cli
  = patterns_of from_config ++ patterns_of from_cli.
Proof.
  destruct from_config as [[|? ?]|], from_cli as [[|? ?]|]; cbn;
    now rewrite ?app_nil_r.
Qed.

(** The collection loop: the collector over every input path, in order;
    one error line per path that does not exist. *)
Lemma collect_paths_result (exclude_patterns : list string)
    (todo all_files : list Path) (w : World) :
  let r := collect_paths fnmatch World world_fs args exclude_patterns
             todo all_files w in
  Run.value r
  = all_files
    ++ flat_map
         (fun p => collect_python_files fnmatch (world_fs w) p
                     (recursive args) (Some exclude_patterns))
         todo
  /\ error_lines (Run.trace r)
     = map (fun p => ("Path not found: " ++ str p)%string)
         (filter (fun p => negb (path_exists (world_fs w) p)) todo)
  /\ warning_lines (Run.trace r) = []
  /\ info_lines (Run.trace r) = []
  /\ sorter_events (Run.trace r) = [].
Proof.
  cbv zeta. revert all_files.
  induction todo as [|path todo IH]; intros all_files.
  - cbn. now rewrite app_nil_r.
  - cbn [collect_paths flat_map filter]. run_step.
    destruct (path_exists (world_fs w) path) eqn:Hex; cbn [negb].
    + run_step. cbn [app]. rewrite collect_or_None.
      destruct (IH (all_files
                      ++ collect_python_files fnmatch (world_fs w) path
                           (recursive args) (Some exclude_patterns)))
        as (H1 & H2 & H3 & H4 & H5).
      rewrite H1, <- app_assoc. auto.
    + unfold logger_error. run_step.
      destruct (IH all_files) as (H1 & H2 & H3 & H4 & H5).
      rewrite (collect_missing _ _ _ _ Hex). cbn [app map].
      unfold error_lines, warning_lines, info_lines, sorter_events in *.
      cbn [flat_map filter app]. rewrite H1, H2, H3, H4, H5. auto.
Qed.

(** The processing loop makes the calls of [sorter_run] and leaves the
    world [sorter_run] leaves; it writes no warning and no info line. *)
Lemma process_files_calls (todo modified_files : list Path) (errors : bool)
    (w : World) :
  let r := process_files World Order MethodTypeOrder sort_file args config
             todo modified_files errors w in
  let s := sorter_run World Order MethodTypeOrder sort_file args config
             todo w in
  sorter_events (Run.trace r) = fst s
  /\ Run.final r = snd s
  /\ warning_lines (Run.trace r) = []
  /\ info_lines (Run.trace r) = [].
Proof.
  cbv zeta. revert modified_files errors w.
  induction todo as [|file_path todo IH]; intros modified_files errors w.
  - cbn. auto.
  - cbn [process_files sorter_run]. run_step. unfold call_sort_file.
    destruct (sort_file file_path (order config) (method_type_order config)
                (check args) (diff args) w) as [[[|]|e] w1];
      cbn [Run.value Run.final Run.trace fst snd negb].
    + run_step.
      assert (Hw : Run.final
                     ((if negb (check args)
                       then logger_success World
                              ("Sorted " ++ str file_path)%string
                       else Run.ret tt) w1) = w1)
        by now destruct (check args).
      rewrite Hw.
      destruct (IH (modified_files ++ [file_path]) errors w1)
        as (H1 & H2 & H3 & H4).
      destruct (sorter_run World Order MethodTypeOrder sort_file args config
                  todo w1) as [events w2].
      cbn [fst snd] in *.
      unfold sorter_events, warning_lines, info_lines in *.
      rewrite !filter_app, !flat_map_app.
      destruct (check args); cbn [negb logger_success Run.emit Run.ret
                                    Run.trace snd filter flat_map app];
        rewrite H1, H3, H4; auto.
    + destruct (IH modified_files errors w1) as (H1 & H2 & H3 & H4).
      destruct (sorter_run World Order MethodTypeOrder sort_file args config
                  todo w1) as [events w2].
      cbn [fst snd] in *.
      unfold sorter_events, warning_lines, info_lines in *.
      cbn [filter flat_map app]. rewrite H1, H3, H4. auto.
    + unfold logger_error. run_step.
      destruct (IH modified_files true w1) as (H1 & H2 & H3 & H4).
      destruct (sorter_run World Order MethodTypeOrder sort_file args config
                  todo w1) as [events w2].
      cbn [fst snd] in *.
      unfold sorter_events, warning_lines, info_lines in *.
      cbn [filter flat_map app]. rewrite H1, H3, H4. auto.
Qed.

(** What the closing lines contribute to each reading of the trace. *)
Lemma closing_events_read (check_mode : bool) (modified_files : list Path)
    (errors : bool) :
  let t := closing_events check_mode modified_files errors in
  sorter_events t = []
  /\ flagged_files t = []
  /\ failed_files t = []
  /\ error_lines t = []
  /\ success_lines t
     = (if nonempty modified_files && negb check_mode
        then [("Sorted " ++ PyStr.of_nat (List.length modified_files)
                 ++ " file(s) successfully")%string]
        else [])
  /\ warning_lines t
     = (if check_mode && nonempty modified_files
        then [("Files that need sorting: "
                 ++ PyStr.of_nat (List.length modified_files))%string]
        else [])
  /\ info_lines t
     = (if negb (nonempty modified_files) && negb errors
        then ["All files are already sorted correctly"]
        else []).
Proof.
  cbv zeta. unfold closing_events.
  assert (Hprints :
    forall l : list Path,
      sorter_events (map (fun f => ConsolePrint ("  - " ++ str f)%string) l)
      = []).
  { induction l as [|f l IH]; [reflexivity | exact IH]. }
  destruct check_mode, modified_files as [|f l], errors;
    cbn [andb negb nonempty];
    unfold flagged_files, failed_files, error_lines, success_lines,
      warning_lines, info_lines;
    cbn [flat_map app map];
    rewrite ?flat_map_prints, ?flat_map_nothing;
    repeat apply conj; try reflexivity;
    apply (Hprints (f :: l)).
Qed.

Lemma print_files_final (files : list Path) (w : World) :
  Run.final (print_files World files w) = w.
Proof.
  induction files as [|f files IH]; [reflexivity|].
  cbn [print_files]. unfold console_print. run_step. exact IH.
Qed.

(** A run of [main] is the collection loop, then either the warning
    that nothing was found, or the processing loop and the closing
    lines. *)
Lemma main_shape (w : World) :
  let r := main fnmatch World world_fs Order MethodTypeOrder sort_file
             args config w in
  let r0 := collect_paths fnmatch World world_fs args
              (merge_exclude (config_exclude config) (exclude args))
              (paths args) [] w in
  let r1 := process_files World Order MethodTypeOrder sort_file args config
              (Run.value r0) [] false w in
  Run.trace r
  = Run.trace r0
    ++ (if nonempty (Run.value r0)
        then Run.trace r1
             ++ closing_events (check args) (fst (Run.value r1))
                  (snd (Run.value r1))
        else [LogWarning "No Python files found"])
  /\ Run.final r = (if nonempty (Run.value r0) then Run.final r1 else w).
Proof.
  cbv zeta. unfold main.
  pose proof (collect_paths_trace fnmatch World world_fs args
                (merge_exclude (config_exclude config) (exclude args))
                (paths args) [] w) as Hc.
  cbv zeta in Hc. destruct Hc as (Hw & _).
  run_step.
  remember (collect_paths fnmatch World world_fs args
              (merge_exclude (config_exclude config) (exclude args))
              (paths args) [] w) as r0 eqn:Hr0.
  clear Hr0. rewrite Hw.
  destruct (Run.value r0) as [|f0 rest]; cbn [nonempty negb].
  - unfold logger_warning. run_step. auto.
  - run_step.
    remember (process_files World Order MethodTypeOrder sort_file args
                config (f0 :: rest) [] false w) as r1 eqn:Hr1.
    clear Hr1.
    destruct (Run.value r1) as [modified_files errors]. cbn [fst snd].
    unfold closing_events.
    destruct (check args && nonempty modified_files).
    + unfold logger_warning. run_step.
      rewrite print_files_trace, print_files_final.
      cbn [app]. now rewrite app_nil_r.
    + run_step.
      destruct (negb (nonempty modified_files) && negb errors);
        [unfold logger_info; run_step; auto|].
      destruct (nonempty modified_files && negb (check args));
        [unfold logger_success; run_step; auto|].
      run_step. auto.
Qed.

(** Every reading of the trace of a whole run, and the world it
    leaves. *)
Lemma main_lines (w : World) :
  let r := main fnmatch World world_fs Order MethodTypeOrder sort_file
             args config w in
  let t := Run.trace r in
  let all_files :=
    collected fnmatch World world_fs Order MethodTypeOrder args config w in
  let s := sorter_run World Order MethodTypeOrder sort_file args config
             all_files w in
  error_lines t
  = map (fun p => ("Path not found: " ++ str p)%string)
      (filter (fun p => negb (path_exists (world_fs w) p)) (paths args))
    ++ map (fun fe => ("Error processing " ++ str (fst fe) ++ ": "
                         ++ snd fe)%string)
         (failed_files t)
  /\ success_lines t
     = (if check args then []
        else map (fun f => ("Sorted " ++ str f)%string) (flagged_files t)
             ++ (if nonempty (flagged_files t)
                 then [("Sorted "
                          ++ PyStr.of_nat (List.length (flagged_files t))
                          ++ " file(s) successfully")%string]
                 else []))
  /\ warning_lines t
     = (if nonempty all_files
        then if check args && nonempty (flagged_files t)
             then [("Files that need sorting: "
                      ++ PyStr.of_nat (List.length (flagged_files t)))%string]
             else []
        else ["No Python files found"])
  /\ info_lines t
     = (if nonempty all_files && negb (nonempty (flagged_files t))
           && negb (nonempty (failed_files t))
        then ["All files are already sorted correctly"]
        else [])
  /\ sorter_events t = fst s
  /\ Run.final r = snd s.
Proof.
  cbv zeta. destruct (main_shape w) as (Ht & Hf). cbv zeta in Ht, Hf.
  rewrite Ht, Hf. clear Ht Hf. unfold collected.
  pose proof (collect_paths_trace fnmatch World world_fs args
                (merge_exclude (config_exclude config) (exclude args))
                (paths args) [] w) as Hc.
  pose proof (collect_paths_result
                (merge_exclude (config_exclude config) (exclude args))
                (paths args) [] w) as Hd.
  cbv zeta in Hc, Hd.
  remember (collect_paths fnmatch World world_fs args
              (merge_exclude (config_exclude config) (exclude args))
              (paths args) [] w) as r0 eqn:Hr0.
  clear Hr0.
  destruct Hc as (_ & _ & C2 & C3 & _ & _ & C6).
  destruct Hd as (_ & D2 & D3 & D4 & D5).
  destruct (Run.value r0) as [|f0 rest]; cbn [nonempty andb].
  - unfold failed_files, flagged_files, error_lines, success_lines,
      warning_lines, info_lines, sorter_events in *.
    rewrite !flat_map_app, !filter_app. cbn [flat_map filter app sorter_run fst snd].
    rewrite C2, C3, C6, D2, D3, D4, D5. cbn [app map nonempty andb List.length].
    rewrite ?app_nil_r, ?andb_false_r.
    destruct (check args); auto 10.
  - pose proof (process_files_run World Order MethodTypeOrder sort_file
                  args config (f0 :: rest) [] false w) as Hp.
    pose proof (process_files_calls (f0 :: rest) [] false w) as Hq.
    cbv zeta in Hp, Hq.
    remember (process_files World Order MethodTypeOrder sort_file args
                config (f0 :: rest) [] false w) as r1 eqn:Hr1.
    clear Hr1.
    destruct Hp as (_ & _ & P3 & P4 & P5 & P6 & _).
    destruct Hq as (Q1 & Q2 & Q3 & Q4).
    cbn [app orb] in P3, P4. rewrite P3, P4.
    pose proof (closing_events_read (check args)
                  (flagged_files (Run.trace r1))
                  (nonempty (failed_files (Run.trace r1)))) as Hz.
    cbv zeta in Hz.
    remember (closing_events (check args) (flagged_files (Run.trace r1))
                (nonempty (failed_files (Run.trace r1)))) as z eqn:Hz0.
    clear Hz0.
    destruct Hz as (Z1 & Z2 & Z3 & Z4 & Z5 & Z6 & Z7).
    remember (sorter_run World Order MethodTypeOrder sort_file args config
                (f0 :: rest) w) as s eqn:Hs.
    clear Hs.
    unfold failed_files, flagged_files, error_lines, success_lines,
      warning_lines, info_lines, sorter_events in *.
    rewrite !flat_map_app, !filter_app.
    rewrite C2, C3, C6, D2, D3, D4, D5, Z1, Z2, Z3, Z4, Z5, Z6, Z7,
      P5, P6, Q1, Q2, Q3, Q4.
    cbn [app]. rewrite ?app_nil_r.
    destruct (check args),
      (flat_map
         (fun e => match e with
                   | SortFile f _ _ (Returned true) => [f]
                   | _ => []
                   end) (Run.trace r1)) as [|g F],
      (flat_map
         (fun e => match e with
                   | SortFile f _ _ (Raised e0) => [(f, e0)]
                   | _ => []
                   end) (Run.trace r1)) as [|x E];
      cbn [nonempty andb negb app map]; rewrite ?app_nil_r;
      repeat apply conj; reflexivity.
Qed.

End DriverShape.

(** X7. The aggregate list of a run is the collector applied to every
    input path in the order given, with the configuration patterns
    followed by the command-line patterns, the results laid end to end:
    a path that does not exist contributes nothing, and nothing is
    removed when two input paths yield the same file. *)
Theorem collected_is_collector_over_inputs
    (fnmatch : string -> string -> bool) (World : Type)
    (world_fs : World -> FileSystem) (Order MethodTypeOrder : Type)
    (args : Args) (config : Config Order MethodTypeOrder) (w : World) :
  collected fnmatch World world_fs Order MethodTypeOrder args config w
  = flat_map
      (fun p =>
         collect_python_files fnmatch (world_fs w) p (recursive args)
           (Some (patterns_of (config_exclude config)
                    ++ patterns_of (exclude args))))
      (paths args).
Proof.
  unfold collected.
  destruct (collect_paths_result fnmatch World world_fs args
              (merge_exclude (config_exclude config) (exclude args))
              (paths args) [] w) as (H & _).
  rewrite H, merge_exclude_app. reflexivity.
Qed.

(** X8. The error lines of a run are exactly: one [Path not found]
    line for each input path that does not exist, in input order, then
    one [Error processing] line for each sorter call that raised, in
    call order. *)
Theorem main_error_lines
    (fnmatch : string -> string -> bool) (World : Type)
    (world_fs : World -> FileSystem) (Order MethodTypeOrder : Type)
    (sort_file : Path -> Order -> option MethodTypeOrder -> bool -> bool ->
                 World -> Outcome * World)
    (args : Args) (config : Config Order MethodTypeOrder) (w : World) :
  let t := Run.trace (main fnmatch World world_fs Order MethodTypeOrder
                        sort_file args config w) in
  error_lines t
  = map (fun p => ("Path not found: " ++ str p)%string)
      (filter (fun p => negb (path_exists (world_fs w) p)) (paths args))
    ++ map (fun fe => ("Error processing " ++ str (fst fe) ++ ": "
                         ++ snd fe)%string)
         (failed_files t).
Proof.
  exact (proj1 (main_lines fnmatch World world_fs Order MethodTypeOrder
                  sort_file args config w)).
Qed.

(** X9. The sorter calls of a run are those of [sorter_run] on the
    collected list: one call per collected entry, in order, each with
    [check_only = args.check] and [show_diff = args.diff] and each made
    in the world the previous call left, whatever the earlier calls
    returned or raised; the world after the run is the one the last call
    leaves (the world at the start when nothing was collected). *)
Theorem main_runs_sorter_in_sequence
    (fnmatch : string -> string -> bool) (World : Type)
    (world_fs : World -> FileSystem) (Order MethodTypeOrder : Type)
    (sort_file : Path -> Order -> option MethodTypeOrder -> bool -> bool ->
                 World -> Outcome * World)
    (args : Args) (config : Config Order MethodTypeOrder) (w : World) :
  let r := main fnmatch World world_fs Order MethodTypeOrder sort_file
             args config w in
  let s := sorter_run World Order MethodTypeOrder sort_file args config
             (collected fnmatch World world_fs Order MethodTypeOrder
                args config w) w in
  sorter_events (Run.trace r) = fst s /\ Run.final r = snd s.
Proof.
  exact (proj2 (proj2 (proj2 (proj2
           (main_lines fnmatch World world_fs Order MethodTypeOrder
              sort_file args config w))))).
Qed.

(** X10. Outside check mode nothing is printed on the console, and the
    success lines are one [Sorted <file>] per flagged call, in call
    order, followed by one summary line with their number when there is
    any; in check mode no success line is written, and the console lists
    the flagged calls. *)
Theorem main_success_and_console_lines
    (fnmatch : string -> string -> bool) (World : Type)
    (world_fs : World -> FileSystem) (Order MethodTypeOrder : Type)
    (sort_file : Path -> Order -> option MethodTypeOrder -> bool -> bool ->
                 World -> Outcome * World)
    (args : Args) (config : Config Order MethodTypeOrder) (w : World) :
  let t := Run.trace (main fnmatch World world_fs Order MethodTypeOrder
                        sort_file args config w) in
  success_lines t
  = (if check args then []
     else map (fun f => ("Sorted " ++ str f)%string) (flagged_files t)
          ++ (if nonempty (flagged_files t)
              then [("Sorted "
                       ++ PyStr.of_nat (List.length (flagged_files t))
                       ++ " file(s) successfully")%string]
              else []))
  /\ console_lines t
     = (if check args
        then map (fun f => ("  - " ++ str f)%string) (flagged_files t)
        else []).
Proof.
  cbv zeta. split.
  - exact (proj1 (proj2 (main_lines fnmatch World world_fs Order
                           MethodTypeOrder sort_file args config w))).
  - now destruct (main_run fnmatch World world_fs Order MethodTypeOrder
                    sort_file args config w) as (_ & _ & _ & H & _).
Qed.

(** X11. The warning and info lines of a run are decided by what was
    collected and what the sorter answered: [No Python files found] and
    nothing else when nothing was collected; the count of files that
    need sorting in check mode when some call was flagged; and
    [All files are already sorted correctly] exactly when something was
    collected, no call was flagged and no call raised. *)
Theorem main_warning_and_info_lines
    (fnmatch : string -> string -> bool) (World : Type)
    (world_fs : World -> FileSystem) (Order MethodTypeOrder : Type)
    (sort_file : Path -> Order -> option MethodTypeOrder -> bool -> bool ->
                 World -> Outcome * World)
    (args : Args) (config : Config Order MethodTypeOrder) (w : World) :
  let t := Run.trace (main fnmatch World world_fs Order MethodTypeOrder
                        sort_file args config w) in
  let all_files :=
    collected fnmatch World world_fs Order MethodTypeOrder args config w in
  warning_lines t
  = (if nonempty all_files
     then if check args && nonempty (flagged_files t)
          then [("Files that need sorting: "
                   ++ PyStr.of_nat (List.length (flagged_files t)))%string]
          else []
     else ["No Python files found"])
  /\ info_lines t
     = (if nonempty all_files && negb (nonempty (flagged_files t))
           && negb (nonempty (failed_files t))
        then ["All files are already sorted correctly"]
        else []).
Proof.
  cbv zeta.
  destruct (main_lines fnmatch World world_fs Order MethodTypeOrder
              sort_file args config w) as (_ & _ & H3 & H4 & _).
  split; assumption.
Qed.
